(** * pyvizio: SmartCast app commands ([pyvizio/_api/apps.py])

    A shallow embedding of the app catalog, of the two launch commands and
    of the two "current app" response interpreters, together with the
    properties of the natural-language specification that concern them.

    Conventions of the embedding.
    - A Python [str] is a [string] read as the sequence of its code points;
      the model covers code points below 256, on which [str.lower] is
      [lower] below.
    - A Python object that can come out of [json.loads] is a [value];
      numbers with a fraction or an exponent (Python floats) are outside
      the model.
    - A Python [dict] is an association list in insertion order; a
      well-formed one has no repeated key ([wf_value]).
    - A call that may raise returns a [result]. *)

From Stdlib Require Import Bool Ascii String List ZArith NArith Arith Lia.
From Stdlib Require Import DecimalString.
Import ListNotations.

(** ** Python values, exceptions and the builtins the module relies on *)

Module Py.

Inductive exn : Set := TypeError | KeyError | AttributeError.

Inductive result (A : Type) : Type :=
| Ok (a : A)
| Raise (e : exn).

Arguments Ok {A} a.
Arguments Raise {A} e.

Definition bind {A B : Type} (m : result A) (k : A -> result B) : result B :=
  match m with
  | Ok a => k a
  | Raise e => Raise e
  end.

#[warnings="-register-all"]
Inductive value : Type :=
| VNone
| VBool (b : bool)
| VInt (n : Z)
| VStr (s : string)
| VList (l : list value)
| VDict (d : list (string * value)).

Definition pydict : Type := list (string * value).

(** Induction principle that reaches inside lists and dicts. *)
Definition value_nested_ind (P : value -> Prop)
  (HNone : P VNone)
  (HBool : forall b, P (VBool b))
  (HInt : forall n, P (VInt n))
  (HStr : forall s, P (VStr s))
  (HList : forall l, Forall P l -> P (VList l))
  (HDict : forall d, Forall (fun kv => P (snd kv)) d -> P (VDict d))
  : forall v, P v :=
  fix go (v : value) : P v :=
    match v with
    | VNone => HNone
    | VBool b => HBool b
    | VInt n => HInt n
    | VStr s => HStr s
    | VList l =>
        HList l ((fix all (l : list value) : Forall P l :=
                    match l with
                    | [] => Forall_nil P
                    | x :: r => Forall_cons x (go x) (all r)
                    end) l)
    | VDict d =>
        HDict d ((fix all (d : pydict) : Forall (fun kv => P (snd kv)) d :=
                    match d with
                    | [] => Forall_nil _
                    | kv :: r => Forall_cons kv (go (snd kv)) (all r)
                    end) d)
    end.

(** [d.get(k)] on exact keys, for a dict with values in [A]. *)
Fixpoint dict_lookup {A : Type} (k : string) (d : list (string * A))
  : option A :=
  match d with
  | [] => None
  | (k', v) :: r => if String.eqb k' k then Some v else dict_lookup k r
  end.

(** [d[k]]: a missing key raises [KeyError]. *)
Definition subscript {A : Type} (d : list (string * A)) (k : string)
  : result A :=
  match dict_lookup k d with
  | Some v => Ok v
  | None => Raise KeyError
  end.

(** [a == b] on values: [bool] is a subclass of [int], so [True == 1] and
    [False == 0]; a [str] never equals a number; lists compare
    element-wise; dicts compare as maps, whatever the insertion order. *)
Fixpoint py_eq (a b : value) {struct a} : bool :=
  match a, b with
  | VNone, VNone => true
  | VBool x, VBool y => Bool.eqb x y
  | VBool x, VInt m => Z.eqb (Z.b2z x) m
  | VInt n, VBool y => Z.eqb n (Z.b2z y)
  | VInt n, VInt m => Z.eqb n m
  | VStr s, VStr t => String.eqb s t
  | VList l1, VList l2 =>
      (fix all2 (l1 l2 : list value) {struct l1} : bool :=
         match l1, l2 with
         | [], [] => true
         | x :: r1, y :: r2 => py_eq x y && all2 r1 r2
         | _, _ => false
         end) l1 l2
  | VDict d1, VDict d2 =>
      Nat.eqb (length d1) (length d2) &&
      forallb (fun kv => match dict_lookup (fst kv) d2 with
                         | Some w => py_eq (snd kv) w
                         | None => false
                         end) d1
  | _, _ => false
  end.

(** [bool(v)], the test of an [if]. *)
Definition truthy (v : value) : bool :=
  match v with
  | VNone => false
  | VBool b => b
  | VInt n => negb (Z.eqb n 0)
  | VStr EmptyString => false
  | VStr (String _ _) => true
  | VList [] => false
  | VList (_ :: _) => true
  | VDict [] => false
  | VDict (_ :: _) => true
  end.

(** Keys of a dict are pairwise distinct, at every depth. *)
Fixpoint nodupb (l : list string) : bool :=
  match l with
  | [] => true
  | k :: r => negb (existsb (String.eqb k) r) && nodupb r
  end.

Fixpoint wf_value (v : value) : bool :=
  match v with
  | VList l => forallb wf_value l
  | VDict d => nodupb (map fst d) && forallb (fun kv => wf_value (snd kv)) d
  | _ => true
  end.

(** [str.lower] on one code point below 256: the ASCII capitals and the
    Latin-1 capitals U+00C0..U+00DE (U+00D7, the multiplication sign, is
    not a letter) move up by 32. *)
Definition lower_char (c : ascii) : ascii :=
  let n := N_of_ascii c in
  if ((65 <=? n) && (n <=? 90) ||
      (192 <=? n) && (n <=? 222) && negb (n =? 215))%N
  then ascii_of_N (n + 32)
  else c.

Fixpoint lower (s : string) : string :=
  match s with
  | EmptyString => EmptyString
  | String c r => String (lower_char c) (lower r)
  end.

(** *** Calling with [**kwargs]

    A call that spreads [d] with the double star needs [d] to be a
    mapping; every key must name a parameter
    ([self] and the positional arguments already given do not count), and a
    parameter left without a value takes its default or, having none, makes
    the call raise [TypeError]. *)
Definition unpack_mapping (v : value) : result pydict :=
  match v with
  | VDict d => Ok d
  | _ => Raise TypeError
  end.

Definition unexpected_keyword (params : list string) (kwargs : pydict) : bool :=
  existsb (fun kv => negb (existsb (String.eqb (fst kv)) params)) kwargs.

Definition keyword_arg (kwargs : pydict) (param : string)
  (default : option value) : result value :=
  match dict_lookup param kwargs with
  | Some v => Ok v
  | None =>
      match default with
      | Some v => Ok v
      | None => Raise TypeError
      end
  end.

(** [next((x for x in l if test(x)), default)]: the first element that
    passes the test, [None] standing for the default; an exception raised
    by the test before the first hit propagates. *)
Fixpoint next_where {A : Type} (test : A -> result bool) (l : list A)
  : result (option A) :=
  match l with
  | [] => Ok None
  | x :: r =>
      match test x with
      | Ok true => Ok (Some x)
      | Ok false => next_where test r
      | Raise e => Raise e
      end
  end.

(** The character U+0022, kept out of string literals. *)
Definition dq : string := String (ascii_of_nat 34) EmptyString.

(** [str(n)] for an [int]. *)
Definition str_of_int (n : Z) : string :=
  NilZero.string_of_int (Z.to_int n).

End Py.

Notation "x <- m ;; k" := (Py.bind m (fun x => k))
  (at level 61, m at next level, right associativity).

(** ** What [apps.py] imports from the rest of the package *)

Module ResponseKey.
Local Open Scope string_scope.

(** Modelled from the spec: [pyvizio._api._protocol.ResponseKey] is not among
    the sources.  The spec names the two wire keys read here, "item" and
    "value"; they are looked up case-insensitively, so their letter case
    is immaterial. *)
Definition ITEM : string := "item".
Definition VALUE : string := "value".

End ResponseKey.

Module Helpers.
Import Py.

(** The value under the first key of [d], in insertion order, that equals
    [key] once both are lowercased. *)
Definition ci_lookup (key : string) (d : pydict) : option value :=
  match find (fun kv => String.eqb (lower (fst kv)) (lower key)) d with
  | Some kv => Some (snd kv)
  | None => None
  end.

(** Modelled from the spec: [pyvizio.helpers.dict_get_case_insensitive] is
    not among the sources.  The spec (4.4, 6, 9) describes a
    case-insensitive key match over a string-keyed mapping with a fallback
    for a missing key: [ci_lookup], else [default_return], which is
    [None] when the caller gives none (an absent "value" yields the default
    config).  Handed something that is not a dict there are no items to
    walk, and the call raises. *)
Definition dict_get_case_insensitive (in_dict : value) (key : string)
  (default_return : value) : result value :=
  match in_dict with
  | VDict d =>
      match ci_lookup key d with
      | Some v => Ok v
      | None => Ok default_return
      end
  | _ => Raise AttributeError
  end.

End Helpers.

(** ** [pyvizio/_api/apps.py] *)

Module Apps.
Import Py Helpers.
Local Open Scope string_scope.

(** *** [class AppConfig] *)

Record AppConfig : Type := mkAppConfig
  { APP_ID : value; NAME_SPACE : value; MESSAGE : value }.

(** [AppConfig.__init__] called with keyword arguments: the three
    parameters all default to [None]. *)
Definition AppConfig___init__ (kwargs : pydict) : result AppConfig :=
  if unexpected_keyword ["APP_ID"; "NAME_SPACE"; "MESSAGE"]%string kwargs
  then Raise TypeError
  else
    a <- keyword_arg kwargs "APP_ID" (Some VNone) ;;
    n <- keyword_arg kwargs "NAME_SPACE" (Some VNone) ;;
    m <- keyword_arg kwargs "MESSAGE" (Some VNone) ;;
    Ok (mkAppConfig a n m).

(** [self.__dict__]: the attributes in the order [__init__] sets them. *)
Definition AppConfig___dict__ (self : AppConfig) : value :=
  VDict [("APP_ID"%string, APP_ID self);
         ("NAME_SPACE"%string, NAME_SPACE self);
         ("MESSAGE"%string, MESSAGE self)].

(** [__eq__]: [self is other or self.__dict__ == other.__dict__], where
    [same_object] is the outcome of [self is other]. *)
Definition AppConfig___eq__ (same_object : bool) (self other : AppConfig)
  : bool :=
  same_object || py_eq (AppConfig___dict__ self) (AppConfig___dict__ other).

(** Object identity: instances live in a store and are named by their
    position in it; [is] compares positions. *)
Definition store : Type := list AppConfig.
Definition ref : Type := nat.

Definition eq_instances (h : store) (self other : ref) : option bool :=
  match nth_error h self, nth_error h other with
  | Some a, Some b => Some (AppConfig___eq__ (Nat.eqb self other) a b)
  | _, _ => None
  end.

(** *** The catalog: [APP_HOME] and [APPS] *)

Record AppDef : Type := mkAppDef
  { name : string;
    country : list string;
    id : option string;
    config : pydict }.

Definition APP_HOME : list AppDef :=
  [
    {| name := "SmartCast Home";
       country := ["*"];
       id := None;
       config :=
           [("NAME_SPACE", VInt 4);
            ("APP_ID", VStr "1");
            ("MESSAGE", VStr "http://127.0.0.1:12345/scfs/sctv/main.html")] |}
  ].

Definition APPS : list AppDef :=
  [
    {| name := "Prime Video";
       country := ["*"];
       id := Some "33";
       config :=
           [("NAME_SPACE", VInt 2);
            ("APP_ID", VStr "4");
            ("MESSAGE", VNone)] |};
    {| name := "CBS All Access";
       country := ["usa"];
       id := Some "9";
       config :=
           [("NAME_SPACE", VInt 2);
            ("APP_ID", VStr "37");
            ("MESSAGE", VNone)] |};
    {| name := "CBS News";
       country := ["usa"; "can"];
       id := Some "56";
       config :=
           [("NAME_SPACE", VInt 2);
            ("APP_ID", VStr "42");
            ("MESSAGE", VNone)] |};
    {| name := "Crackle";
       country := ["usa"];
       id := Some "8";
       config :=
           [("NAME_SPACE", VInt 2);
            ("APP_ID", VStr "5");
            ("MESSAGE", VNone)] |};
    {| name := "Curiosity Stream";
       country := ["usa"; "can"];
       id := Some "37";
       config :=
           [("NAME_SPACE", VInt 2);
            ("APP_ID", VStr "12");
            ("MESSAGE", VNone)] |};
    {| name := "Fandango Now";
       country := ["usa"];
       id := Some "24";
       config :=
           [("NAME_SPACE", VInt 2);
            ("APP_ID", VStr "7");
            ("MESSAGE", VNone)] |};
    {| name := "FilmRise";
       country := ["usa"];
       id := Some "47";
       config :=
           [("NAME_SPACE", VInt 2);
            ("APP_ID", VStr "24");
            ("MESSAGE", VNone)] |};
    {| name := "Flixfling";
       country := ["*"];
       id := Some "49";
       config :=
           [("NAME_SPACE", VInt 2);
            ("APP_ID", VStr "36");
            ("MESSAGE", VNone)] |};
    {| name := "Haystack TV";
       country := ["usa"; "can"];
       id := Some "35";
       config :=
           [("NAME_SPACE", VInt 0);
            ("APP_ID", VStr "898AF734");
            ("MESSAGE", VStr ("{" ++ dq ++ "CAST_NAMESPACE" ++ dq ++ ":" ++ dq
                 ++ "urn:x-cast:com.google.cast.media" ++ dq ++ "," ++ dq
                 ++ "CAST_MESSAGE" ++ dq ++ ":{" ++ dq ++ "type" ++ dq
                 ++ ":" ++ dq ++ "LOAD" ++ dq ++ "," ++ dq ++ "media" ++ dq
                 ++ ":{}," ++ dq ++ "autoplay" ++ dq ++ ":true," ++ dq
                 ++ "currentTime" ++ dq ++ ":0," ++ dq ++ "customData"
                 ++ dq ++ ":{" ++ dq ++ "platform" ++ dq ++ ":" ++ dq
                 ++ "sctv" ++ dq ++ "}}}")%string)] |};
    {| name := "Hulu";
       country := ["usa"];
       id := Some "19";
       config :=
           [("NAME_SPACE", VInt 2);
            ("APP_ID", VStr "3");
            ("MESSAGE", VNone)] |};
    {| name := "iHeartRadio";
       country := ["usa"];
       id := Some "11";
       config :=
           [("NAME_SPACE", VInt 2);
            ("APP_ID", VStr "6");
            ("MESSAGE", VNone)] |};
    {| name := "NBC";
       country := ["usa"];
       id := Some "43";
       config :=
           [("NAME_SPACE", VInt 2);
            ("APP_ID", VStr "10");
            ("MESSAGE", VNone)] |};
    {| name := "Netflix";
       country := ["*"];
       id := Some "34";
       config :=
           [("NAME_SPACE", VInt 3);
            ("APP_ID", VStr "1");
            ("MESSAGE", VNone)] |};
    {| name := "Plex";
       country := ["usa"; "can"];
       id := Some "40";
       config :=
           [("NAME_SPACE", VInt 2);
            ("APP_ID", VStr "9");
            ("MESSAGE", VNone)] |};
    {| name := "Pluto TV";
       country := ["usa"];
       id := Some "12";
       config :=
           [("NAME_SPACE", VInt 0);
            ("APP_ID", VStr "E6F74C01");
            ("MESSAGE", VStr ("{" ++ dq ++ "CAST_NAMESPACE" ++ dq ++ ":" ++ dq
                 ++ "urn:x-cast:tv.pluto" ++ dq ++ "," ++ dq
                 ++ "CAST_MESSAGE" ++ dq ++ ":{" ++ dq ++ "command" ++ dq
                 ++ ":" ++ dq ++ "initializePlayback" ++ dq ++ "," ++ dq
                 ++ "channel" ++ dq ++ ":" ++ dq ++ dq ++ "," ++ dq
                 ++ "episode" ++ dq ++ ":" ++ dq ++ dq ++ "," ++ dq
                 ++ "time" ++ dq ++ ":0}}")%string)] |};
    {| name := "RedBox";
       country := ["usa"];
       id := Some "55";
       config :=
           [("NAME_SPACE", VInt 2);
            ("APP_ID", VStr "41");
            ("MESSAGE", VNone)] |};
    {| name := "TasteIt";
       country := ["*"];
       id := Some "52";
       config :=
           [("NAME_SPACE", VInt 2);
            ("APP_ID", VStr "26");
            ("MESSAGE", VNone)] |};
    {| name := "Toon Goggles";
       country := ["usa"; "can"];
       id := Some "46";
       config :=
           [("NAME_SPACE", VInt 2);
            ("APP_ID", VStr "21");
            ("MESSAGE", VNone)] |};
    {| name := "Vudu";
       country := ["usa"];
       id := Some "6";
       config :=
           [("NAME_SPACE", VInt 2);
            ("APP_ID", VStr "21");
            ("MESSAGE", VStr "https://my.vudu.com/castReceiver/index.html?launch-source=app-icon")] |};
    {| name := "XUMO";
       country := ["usa"];
       id := Some "27";
       config :=
           [("NAME_SPACE", VInt 0);
            ("APP_ID", VStr "36E1EA1F");
            ("MESSAGE", VStr ("{" ++ dq ++ "CAST_NAMESPACE" ++ dq ++ ":" ++ dq
                 ++ "urn:x-cast:com.google.cast.media" ++ dq ++ "," ++ dq
                 ++ "CAST_MESSAGE" ++ dq ++ ":{" ++ dq ++ "type" ++ dq
                 ++ ":" ++ dq ++ "LOAD" ++ dq ++ "," ++ dq ++ "media" ++ dq
                 ++ ":{}," ++ dq ++ "autoplay" ++ dq ++ ":true," ++ dq
                 ++ "currentTime" ++ dq ++ ":0," ++ dq ++ "customData"
                 ++ dq ++ ":{}}}")%string)] |};
    {| name := "YouTubeTV";
       country := ["usa"; "mexico"];
       id := Some "45";
       config :=
           [("NAME_SPACE", VInt 5);
            ("APP_ID", VStr "3");
            ("MESSAGE", VNone)] |};
    {| name := "YouTube";
       country := ["*"];
       id := Some "44";
       config :=
           [("NAME_SPACE", VInt 5);
            ("APP_ID", VStr "1");
            ("MESSAGE", VNone)] |};
    {| name := "Baeble";
       country := ["usa"];
       id := Some "39";
       config :=
           [("NAME_SPACE", VInt 2);
            ("APP_ID", VStr "11");
            ("MESSAGE", VNone)] |};
    {| name := "DAZN";
       country := ["usa"; "can"];
       id := Some "57";
       config :=
           [("NAME_SPACE", VInt 2);
            ("APP_ID", VStr "34");
            ("MESSAGE", VNone)] |};
    {| name := "FitFusion by Jillian Michaels";
       country := ["usa"; "can"];
       id := Some "54";
       config :=
           [("NAME_SPACE", VInt 2);
            ("APP_ID", VStr "39");
            ("MESSAGE", VNone)] |};
    {| name := "Newsy";
       country := ["usa"; "can"];
       id := Some "38";
       config :=
           [("NAME_SPACE", VInt 2);
            ("APP_ID", VStr "15");
            ("MESSAGE", VNone)] |};
    {| name := "Cocoro TV";
       country := ["usa"; "can"];
       id := Some "63";
       config :=
           [("NAME_SPACE", VInt 2);
            ("APP_ID", VStr "55");
            ("MESSAGE", VNone)] |};
    {| name := "ConTV";
       country := ["usa"; "can"];
       id := Some "41";
       config :=
           [("NAME_SPACE", VInt 2);
            ("APP_ID", VStr "18");
            ("MESSAGE", VNone)] |};
    {| name := "Dove Channel";
       country := ["usa"; "can"];
       id := Some "42";
       config :=
           [("NAME_SPACE", VInt 2);
            ("APP_ID", VStr "16");
            ("MESSAGE", VNone)] |};
    {| name := "Love Destination";
       country := ["*"];
       id := Some "64";
       config :=
           [("NAME_SPACE", VInt 2);
            ("APP_ID", VStr "57");
            ("MESSAGE", VNone)] |};
    {| name := "WatchFree";
       country := ["usa"];
       id := Some "48";
       config :=
           [("NAME_SPACE", VInt 2);
            ("APP_ID", VStr "22");
            ("MESSAGE", VNone)] |};
    {| name := "AsianCrush";
       country := ["usa"; "can"];
       id := Some "50";
       config :=
           [("NAME_SPACE", VInt 2);
            ("APP_ID", VStr "27");
            ("MESSAGE", VStr "https://html5.asiancrush.com/?ua=viziosmartcast")] |}
  ].

Definition catalog : list AppDef := (APP_HOME ++ APPS)%list.

(** *** The commands *)

(** Modelled from the spec: [CommandBase] ([pyvizio._api.base]) is not among
    the sources.  By the spec (4.2) a launch request is bound to the
    endpoint it was built for and carries an [AppConfig] as its body; the
    record keeps the two. *)
Record LaunchAppConfigCommand : Type := mkLaunch
  { url : string; VALUE : AppConfig }.

Section Commands.

(** [ENDPOINT] of [pyvizio._api._protocol] (device type, then command name,
    to endpoint) and the two sentinels of [pyvizio.const] are not among the
    sources: the commands are read for any table and any two strings. *)
Variable ENDPOINT : list (string * list (string * string)).
Variables NO_APP_RUNNING UNKNOWN_APP : string.

(** [LaunchAppConfigCommand.__init__(self, device_type, APP_ID, NAME_SPACE,
    MESSAGE=None)], with [device_type] given by position and the rest by
    keyword, which is how [LaunchAppNameCommand] calls it. *)
Definition LaunchAppConfigCommand_init (device_type : string)
  (kwargs : pydict) : result LaunchAppConfigCommand :=
  if unexpected_keyword ["APP_ID"; "NAME_SPACE"; "MESSAGE"] kwargs
  then Raise TypeError
  else
    a <- keyword_arg kwargs "APP_ID" None ;;
    n <- keyword_arg kwargs "NAME_SPACE" None ;;
    m <- keyword_arg kwargs "MESSAGE" (Some VNone) ;;
    by_device <- subscript ENDPOINT device_type ;;
    endpoint <- subscript by_device "LAUNCH_APP" ;;
    Ok (mkLaunch endpoint (mkAppConfig a n m)).

(** The generator of [LaunchAppNameCommand.__init__]; [None] is the
    [dict()] that [next] falls back to. *)
Definition app_def_by_name (app_name : string) : result (option AppDef) :=
  next_where
    (fun app_def => Ok (String.eqb (lower (name app_def)) (lower app_name)))
    catalog.

(** [app_def.get("config", dict())]. *)
Definition get_config (app_def : option AppDef) : pydict :=
  match app_def with
  | Some d => config d
  | None => []
  end.

Definition LaunchAppNameCommand_init (device_type app_name : string)
  : result LaunchAppConfigCommand :=
  app_def <- app_def_by_name app_name ;;
  LaunchAppConfigCommand_init device_type (get_config app_def).

(** [GetCurrentAppConfigCommand.process_response]. *)
Definition GetCurrentAppConfigCommand_process_response (json_obj : value)
  : result AppConfig :=
  item <- dict_get_case_insensitive json_obj ResponseKey.ITEM (VDict []) ;;
  current_app_id <- dict_get_case_insensitive item ResponseKey.VALUE VNone ;;
  if truthy current_app_id
  then kwargs <- unpack_mapping current_app_id ;; AppConfig___init__ kwargs
  else AppConfig___init__ [].

(** The test of the generator of [GetCurrentAppNameCommand]:
    [app_def["config"]["APP_ID"] == c.APP_ID and
     app_def["config"]["NAME_SPACE"] == c.NAME_SPACE]. *)
Definition config_matches (c : AppConfig) (app_def : AppDef) : result bool :=
  a <- subscript (config app_def) "APP_ID" ;;
  if py_eq a (APP_ID c)
  then n <- subscript (config app_def) "NAME_SPACE" ;;
       Ok (py_eq n (NAME_SPACE c))
  else Ok false.

Definition app_def_by_config (c : AppConfig) : result (option AppDef) :=
  next_where (config_matches c) catalog.

(** [app_def.get("name", UNKNOWN_APP)]. *)
Definition get_name (app_def : option AppDef) : string :=
  match app_def with
  | Some d => name d
  | None => UNKNOWN_APP
  end.

(** [GetCurrentAppNameCommand.process_response]; the [AppConfig()] it
    compares with is a new instance, never the parsed one. *)
Definition GetCurrentAppNameCommand_process_response (json_obj : value)
  : result string :=
  current_app_config <- GetCurrentAppConfigCommand_process_response json_obj ;;
  default <- AppConfig___init__ [] ;;
  if negb (AppConfig___eq__ false current_app_config default)
  then app_def <- app_def_by_config current_app_config ;;
       Ok (get_name app_def)
  else Ok NO_APP_RUNNING.

End Commands.

(** *** Vocabulary of the specification *)

(** The entry's config holds [APP_ID] and [NAME_SPACE], and they equal
    those of [c] in the sense of Python's [==]; [MESSAGE] plays no part. *)
Definition pair_matches (c : AppConfig) (app_def : AppDef) : bool :=
  match dict_lookup "APP_ID" (config app_def),
        dict_lookup "NAME_SPACE" (config app_def) with
  | Some a, Some n => py_eq a (APP_ID c) && py_eq n (NAME_SPACE c)
  | _, _ => false
  end.

(** An entry's name matches [app_name] regardless of letter case. *)
Definition name_matches (app_name : string) (app_def : AppDef) : bool :=
  String.eqb (lower (name app_def)) (lower app_name).

(** Every entry stores a string [APP_ID] and an integer [NAME_SPACE]. *)
Definition typed_config (app_def : AppDef) : bool :=
  match dict_lookup "APP_ID" (config app_def),
        dict_lookup "NAME_SPACE" (config app_def) with
  | Some (VStr _), Some (VInt _) => true
  | _, _ => false
  end.

(** The config an entry is launched with, read as an [AppConfig] carrying
    the message [m]. *)
Definition config_of (app_def : AppDef) (m : value) : AppConfig :=
  mkAppConfig
    (match dict_lookup "APP_ID" (config app_def) with
     | Some a => a
     | None => VNone
     end)
    (match dict_lookup "NAME_SPACE" (config app_def) with
     | Some n => n
     | None => VNone
     end)
    m.

(** [x] is the first element of [l] that passes [test]. *)
Definition first_passing {A : Type} (test : A -> bool) (l : list A) (x : A)
  : Prop :=
  exists before after,
    l = (before ++ x :: after)%list /\
    test x = true /\
    Forall (fun y => test y = false) before.

(** Letter-case variants of a string: the characters chosen by [mask] have
    their ASCII case swapped, as [str.swapcase] does on ASCII letters. *)
Definition swapcase_char (c : ascii) : ascii :=
  let n := N_of_ascii c in
  if ((65 <=? n) && (n <=? 90))%N then ascii_of_N (n + 32)
  else if ((97 <=? n) && (n <=? 122))%N then ascii_of_N (n - 32)
  else c.

Fixpoint recase (mask : list bool) (s : string) : string :=
  match s, mask with
  | String c r, b :: mask' =>
      String (if b then swapcase_char c else c) (recase mask' r)
  | _, _ => s
  end.

(** The response [{item_key: {value_key: v}}]. *)
Definition response (item_key value_key : string) (v : value) : value :=
  VDict [(item_key, VDict [(value_key, v)])].

(** The response [{item_key: {}}], with no value at all. *)
Definition response_without_value (item_key : string) : value :=
  VDict [(item_key, VDict [])].

(** The field [k] of a value object, [None] when it is not supplied. *)
Definition field (d : pydict) (k : string) : value :=
  match dict_lookup k d with
  | Some v => v
  | None => VNone
  end.

Definition field_names : list string := ["APP_ID"; "NAME_SPACE"; "MESSAGE"].

(** The config of [AppConfig()]. *)
Definition default_config : AppConfig := mkAppConfig VNone VNone VNone.

(** Whether the three attributes are equal one by one. *)
Definition pairwise_equal (a b : AppConfig) : bool :=
  py_eq (APP_ID a) (APP_ID b) && py_eq (NAME_SPACE a) (NAME_SPACE b) &&
  py_eq (MESSAGE a) (MESSAGE b).

(** Entries of the catalog the specification singles out, by position. *)
Definition no_app_def : AppDef := mkAppDef EmptyString [] None [].

Definition netflix : AppDef := nth 13 catalog no_app_def.
Definition toon_goggles : AppDef := nth 18 catalog no_app_def.
Definition vudu : AppDef := nth 19 catalog no_app_def.

(** Value objects of sample responses. *)
Definition netflix_value : value :=
  VDict [("APP_ID", VStr "1"); ("NAME_SPACE", VInt 3)].

Definition uncatalogued_value : value :=
  VDict [("APP_ID", VStr "999"); ("NAME_SPACE", VInt 99)].

Definition netflix_with_string_name_space : value :=
  VDict [("APP_ID", VStr "1"); ("NAME_SPACE", VStr "3")].

Definition lowercase_fields_value : value :=
  VDict [("app_id", VStr "1"); ("name_space", VInt 3); ("message", VNone)].

Definition extra_field_value : value :=
  VDict [("APP_ID", VStr "1"); ("NAME_SPACE", VInt 3);
         ("IS_LOCKED", VBool false)].

(** The config an entry is launched with, message included. *)
Definition entry_config (app_def : AppDef) : AppConfig :=
  mkAppConfig (field (config app_def) "APP_ID")
    (field (config app_def) "NAME_SPACE")
    (field (config app_def) "MESSAGE").

(** What is left of [LaunchAppConfigCommand.__init__] once its arguments
    are bound: [ENDPOINT[device_type]["LAUNCH_APP"]], then the payload. *)
Definition launch_request (ENDPOINT : list (string * list (string * string)))
  (device_type : string) (c : AppConfig) : result LaunchAppConfigCommand :=
  by_device <- subscript ENDPOINT device_type ;;
  endpoint <- subscript by_device "LAUNCH_APP" ;;
  Ok (mkLaunch endpoint c).

(** Keyword arguments that [LaunchAppConfigCommand.__init__] can bind: no
    key besides the three, [APP_ID] and [NAME_SPACE] among them. *)
Definition bindable_kwargs (kwargs : pydict) : bool :=
  negb (unexpected_keyword field_names kwargs) &&
  match dict_lookup "APP_ID" kwargs, dict_lookup "NAME_SPACE" kwargs with
  | Some _, Some _ => true
  | _, _ => false
  end.


End Apps.

(** * Properties *)

(** ** Facts about the builtins *)

Module PyFacts.
Import Py.

Section Generators.
Context {A : Type}.
Implicit Types (l : list A) (x : A).

(** A test that cannot raise turns [next] into [List.find]. *)
Lemma next_where_total (test : A -> result bool) (p : A -> bool) l :
  (forall x, In x l -> test x = Ok (p x)) ->
  next_where test l = Ok (find p l).
Proof.
  induction l as [|x r IH]; intros H; simpl; [reflexivity|].
  rewrite (H x (or_introl eq_refl)).
  destruct (p x); [reflexivity|].
  apply IH. intros y Hy. apply H. now right.
Qed.

(** What [find] returns is the first element that passes. *)
Lemma find_first_passing (p : A -> bool) l x :
  find p l = Some x -> Apps.first_passing p l x.
Proof.
  unfold Apps.first_passing.
  induction l as [|y r IH]; simpl; [discriminate|].
  destruct (p y) eqn:Hy.
  - intros [= ->]. exists [], r. repeat split; auto.
  - intros Hf. destruct (IH Hf) as (before & after & -> & Hx & Hb).
    exists (y :: before), after. repeat split; auto.
Qed.

Lemma find_is_some (p : A -> bool) l x :
  In x l -> p x = true -> exists y, find p l = Some y.
Proof.
  intros Hin Hx. destruct (find p l) as [y|] eqn:Hf; [now exists y|].
  rewrite (find_none _ _ Hf x Hin) in Hx. discriminate.
Qed.

Lemma find_ext_in (p q : A -> bool) l :
  (forall x, In x l -> p x = q x) -> find p l = find q l.
Proof.
  induction l as [|y r IH]; intros H; simpl; [reflexivity|].
  rewrite (H y (or_introl eq_refl)).
  destruct (q y); [reflexivity|].
  apply IH. intros z Hz. apply H. now right.
Qed.

Lemma find_none_of_Forall (p : A -> bool) l :
  Forall (fun x => p x = false) l -> find p l = None.
Proof.
  induction 1 as [|x r Hx _ IH]; simpl; [reflexivity|]. now rewrite Hx.
Qed.

Lemma Forall_false_of_forallb (p : A -> bool) l :
  forallb (fun x => negb (p x)) l = true ->
  Forall (fun x => p x = false) l.
Proof.
  rewrite forallb_forall, Forall_forall. intros H x Hx.
  apply negb_true_iff. now apply H.
Qed.

End Generators.

(** *** Dicts *)

Lemma dict_lookup_in {A : Type} (d : list (string * A)) k v :
  nodupb (map fst d) = true -> In (k, v) d -> dict_lookup k d = Some v.
Proof.
  induction d as [|[k' v'] r IH]; simpl; [tauto|].
  intros Hnd [[= -> ->]|Hin].
  - now rewrite String.eqb_refl.
  - apply andb_true_iff in Hnd as [Hk Hr].
    destruct (String.eqb_spec k' k) as [->|_]; [|now apply IH].
    apply negb_true_iff in Hk.
    assert (existsb (String.eqb k) (map fst r) = true) as E; [|congruence].
    apply existsb_exists. exists k. split; [|apply String.eqb_refl].
    change k with (fst (k, v)). now apply in_map.
Qed.

(** *** Equality *)

Lemma py_eq_list_refl (l : list value) :
  Forall (fun v => py_eq v v = true) l -> py_eq (VList l) (VList l) = true.
Proof.
  induction 1 as [|x r Hx _ IH]; simpl; [reflexivity|].
  simpl in IH. now rewrite Hx, IH.
Qed.

(** [==] is reflexive on every well-formed value. *)
Lemma py_eq_refl (v : value) : wf_value v = true -> py_eq v v = true.
Proof.
  induction v as [ | b | n | s | l IH | d IH] using value_nested_ind;
    intros Hwf.
  - reflexivity.
  - apply Bool.eqb_reflx.
  - apply Z.eqb_refl.
  - apply String.eqb_refl.
  - apply py_eq_list_refl. simpl in Hwf.
    rewrite forallb_forall in Hwf. rewrite Forall_forall in IH |- *.
    intros x Hx. apply IH; auto.
  - simpl in Hwf |- *. apply andb_true_iff in Hwf as [Hnd Hall].
    rewrite Nat.eqb_refl. simpl. apply forallb_forall.
    intros [k v] Hin. simpl.
    rewrite (dict_lookup_in d k v Hnd Hin).
    rewrite Forall_forall in IH. rewrite forallb_forall in Hall.
    apply (IH (k, v) Hin). apply (Hall (k, v) Hin).
Qed.

(** [None] equals nothing but itself. *)
Lemma py_eq_None_r (v : value) : py_eq v VNone = true <-> v = VNone.
Proof.
  destruct v; simpl; split; intros H; try reflexivity; discriminate.
Qed.

(** An [int] never equals a [str]: there is no coercion. *)
Lemma py_eq_int_str (n : Z) (s : string) : py_eq (VInt n) (VStr s) = false.
Proof. reflexivity. Qed.

(** The falsy values. *)
Lemma truthy_false_iff (v : value) :
  truthy v = false <->
  v = VNone \/ v = VBool false \/ v = VInt 0 \/ v = VStr EmptyString \/
  v = VList [] \/ v = VDict [].
Proof.
  split.
  - destruct v as [ | [] | n | [|? ?] | [|? ?] | [|? ?]]; simpl; intros H;
      try discriminate; auto 7.
    apply negb_false_iff, Z.eqb_eq in H. subst. auto.
  - intros [->|[->|[->|[->|[->| ->]]]]]; reflexivity.
Qed.

(** *** Letter case *)

Lemma lower_char_swapcase (c : ascii) :
  lower_char (Apps.swapcase_char c) = lower_char c.
Proof. destruct c as [[] [] [] [] [] [] [] []]; reflexivity. Qed.

Lemma lower_recase (mask : list bool) (s : string) :
  lower (Apps.recase mask s) = lower s.
Proof.
  revert mask. induction s as [|c r IH]; intros [|b mask]; simpl; auto.
  rewrite IH. destruct b; [rewrite lower_char_swapcase|]; reflexivity.
Qed.

End PyFacts.

(** ** The catalog and the commands *)

Module AppsSpec.
Import Py Helpers Apps PyFacts.
Local Open Scope string_scope.

(** *** [AppConfig] *)

Lemma AppConfig_init_no_argument : AppConfig___init__ [] = Ok default_config.
Proof. reflexivity. Qed.

Lemma AppConfig_init_known_keys (d : pydict) :
  unexpected_keyword field_names d = false ->
  AppConfig___init__ d =
  Ok (mkAppConfig (field d "APP_ID") (field d "NAME_SPACE") (field d "MESSAGE")).
Proof.
  intros H. unfold AppConfig___init__. fold field_names. rewrite H.
  unfold keyword_arg, field.
  destruct (dict_lookup "APP_ID" d), (dict_lookup "NAME_SPACE" d),
    (dict_lookup "MESSAGE" d); reflexivity.
Qed.

Lemma AppConfig_init_unknown_key (d : pydict) :
  unexpected_keyword field_names d = true ->
  AppConfig___init__ d = Raise TypeError.
Proof.
  intros H. unfold AppConfig___init__. fold field_names. now rewrite H.
Qed.

(** Comparing two distinct instances compares the three attributes. *)
Lemma AppConfig_eq_distinct (a b : AppConfig) :
  AppConfig___eq__ false a b =
  py_eq (APP_ID a) (APP_ID b) && py_eq (NAME_SPACE a) (NAME_SPACE b) &&
  py_eq (MESSAGE a) (MESSAGE b).
Proof.
  destruct a as [a1 a2 a3], b as [b1 b2 b3]. cbn.
  now rewrite andb_true_r, andb_assoc.
Qed.

Lemma AppConfig_eq_default (c : AppConfig) :
  AppConfig___eq__ false c default_config = true <-> c = default_config.
Proof.
  rewrite AppConfig_eq_distinct. unfold default_config. simpl.
  rewrite !andb_true_iff, !py_eq_None_r.
  destruct c as [a n m]; simpl. split.
  - intros [[-> ->] ->]. reflexivity.
  - intros [= -> -> ->]. auto.
Qed.

(** *** The catalog *)

Lemma catalog_typed : forallb typed_config catalog = true.
Proof. vm_compute. reflexivity. Qed.

Lemma catalog_entry_typed (e : AppDef) :
  In e catalog ->
  exists s n,
    dict_lookup "APP_ID" (config e) = Some (VStr s) /\
    dict_lookup "NAME_SPACE" (config e) = Some (VInt n).
Proof.
  intros Hin.
  pose proof (proj1 (forallb_forall _ _) catalog_typed e Hin) as H.
  unfold typed_config in H.
  destruct (dict_lookup "APP_ID" (config e)) as [[]|]; try discriminate.
  destruct (dict_lookup "NAME_SPACE" (config e)) as [[]|]; try discriminate.
  eauto.
Qed.

(** On the catalog the test of the reverse lookup cannot raise. *)
Lemma config_matches_catalog (c : AppConfig) (e : AppDef) :
  In e catalog -> config_matches c e = Ok (pair_matches c e).
Proof.
  intros Hin. destruct (catalog_entry_typed e Hin) as (s & n & Ha & Hn).
  unfold config_matches, pair_matches, subscript. rewrite Ha, Hn.
  cbn [bind]. destruct (py_eq (VStr s) (APP_ID c)); reflexivity.
Qed.

Lemma app_def_by_config_find (c : AppConfig) :
  app_def_by_config c = Ok (find (pair_matches c) catalog).
Proof.
  apply next_where_total. intros e. apply config_matches_catalog.
Qed.

Lemma app_def_by_name_find (app_name : string) :
  app_def_by_name app_name = Ok (find (name_matches app_name) catalog).
Proof. apply next_where_total. reflexivity. Qed.

(** An entry matches the config it is launched with, whatever the message. *)
Lemma pair_matches_own_config (e : AppDef) (m : value) :
  In e catalog -> pair_matches (config_of e m) e = true.
Proof.
  intros Hin. destruct (catalog_entry_typed e Hin) as (s & n & Ha & Hn).
  unfold pair_matches, config_of. rewrite Ha, Hn. simpl.
  now rewrite String.eqb_refl, Z.eqb_refl.
Qed.

(** Two entries that match the same config of the catalog share the pair. *)
Lemma pair_matches_same_pair (e f : AppDef) (m : value) :
  In e catalog -> In f catalog -> pair_matches (config_of e m) f = true ->
  dict_lookup "APP_ID" (config f) = dict_lookup "APP_ID" (config e) /\
  dict_lookup "NAME_SPACE" (config f) = dict_lookup "NAME_SPACE" (config e).
Proof.
  intros He Hf.
  destruct (catalog_entry_typed e He) as (s & n & Ha & Hn).
  destruct (catalog_entry_typed f Hf) as (s' & n' & Ha' & Hn').
  unfold pair_matches, config_of. rewrite Ha, Hn, Ha', Hn'. simpl.
  intros H. apply andb_true_iff in H as [H1 H2].
  apply String.eqb_eq in H1. apply Z.eqb_eq in H2. now subst.
Qed.

(** *** The response interpreters, step by step *)

Lemma process_response_steps (json_obj item v : value) :
  dict_get_case_insensitive json_obj ResponseKey.ITEM (VDict []) = Ok item ->
  dict_get_case_insensitive item ResponseKey.VALUE VNone = Ok v ->
  GetCurrentAppConfigCommand_process_response json_obj =
  if truthy v
  then match v with
       | VDict d => AppConfig___init__ d
       | _ => Raise TypeError
       end
  else Ok default_config.
Proof.
  intros Hi Hv. unfold GetCurrentAppConfigCommand_process_response.
  rewrite Hi. simpl. rewrite Hv. simpl.
  destruct (truthy v); [|reflexivity]. now destruct v.
Qed.

Lemma name_response_steps (NO UNK : string) (json_obj : value) (c : AppConfig) :
  GetCurrentAppConfigCommand_process_response json_obj = Ok c ->
  GetCurrentAppNameCommand_process_response NO UNK json_obj =
  if AppConfig___eq__ false c default_config
  then Ok NO
  else Ok (get_name UNK (find (pair_matches c) catalog)).
Proof.
  intros H. unfold GetCurrentAppNameCommand_process_response.
  rewrite H. cbn [bind]. rewrite AppConfig_init_no_argument. cbn [bind].
  destruct (AppConfig___eq__ false c default_config); simpl; [reflexivity|].
  now rewrite app_def_by_config_find.
Qed.

Lemma name_response_raises (NO UNK : string) (json_obj : value) (e : exn) :
  GetCurrentAppConfigCommand_process_response json_obj = Raise e ->
  GetCurrentAppNameCommand_process_response NO UNK json_obj = Raise e.
Proof.
  intros H. unfold GetCurrentAppNameCommand_process_response. now rewrite H.
Qed.

(** A response that spells out the attributes of [c] parses back to [c]. *)
Lemma process_response_own_dict (c : AppConfig) :
  GetCurrentAppConfigCommand_process_response
    (response "ITEM" "VALUE" (AppConfig___dict__ c)) = Ok c.
Proof. destruct c. reflexivity. Qed.

(** The config of a catalog entry is never the default one. *)
Lemma config_of_not_default (e : AppDef) (m : value) :
  In e catalog ->
  AppConfig___eq__ false (config_of e m) default_config = false.
Proof.
  intros He. destruct (catalog_entry_typed e He) as (s & n & Ha & _).
  destruct (AppConfig___eq__ false (config_of e m) default_config) eqn:E;
    [|reflexivity].
  apply AppConfig_eq_default in E. unfold config_of in E.
  rewrite Ha in E. discriminate E.
Qed.

(** Matching keys, whatever their case, reach the value. *)
Lemma response_item_value (ki kv : string) (v : value) :
  lower ki = "item" -> lower kv = "value" ->
  dict_get_case_insensitive (response ki kv v) ResponseKey.ITEM (VDict []) =
    Ok (VDict [(kv, v)]) /\
  dict_get_case_insensitive (VDict [(kv, v)]) ResponseKey.VALUE VNone = Ok v.
Proof.
  intros Hi Hv. unfold response, dict_get_case_insensitive, ci_lookup.
  simpl. rewrite Hi, Hv. simpl. auto.
Qed.

(** *** Launching by name *)

(** A name that matches no entry leaves the required parameters [APP_ID] and
    [NAME_SPACE] of [LaunchAppConfigCommand.__init__] without a value. *)
Lemma unmatched_name_gives_type_error
  (ENDPOINT : list (string * list (string * string)))
  (device_type app_name : string) :
  Forall (fun e => name_matches app_name e = false) catalog ->
  LaunchAppNameCommand_init ENDPOINT device_type app_name = Raise TypeError.
Proof.
  intros H. unfold LaunchAppNameCommand_init.
  rewrite app_def_by_name_find, (find_none_of_Forall _ _ H). reflexivity.
Qed.

(** C1 (code defect).  The specification promises that launching by a name
    that matches no catalog entry builds a request whose [AppConfig] has
    three null fields.  The code falls back to an empty dict and unpacks it
    into [LaunchAppConfigCommand.__init__], whose parameters [APP_ID] and
    [NAME_SPACE] have no default: for the name "nonexistent-app" the
    lookup finds nothing and the constructor raises [TypeError], whatever
    the device type and the endpoint table. *)
Theorem launch_nonexistent_app_raises
  (ENDPOINT : list (string * list (string * string))) (device_type : string) :
  app_def_by_name "nonexistent-app" = Ok None /\
  get_config None = [] /\
  LaunchAppNameCommand_init ENDPOINT device_type "nonexistent-app" =
    Raise TypeError.
Proof.
  split; [reflexivity|]. split; [reflexivity|].
  apply unmatched_name_gives_type_error, Forall_false_of_forallb.
  vm_compute. reflexivity.
Qed.

(** *** The name of the running app *)

(** C2, as the claim states it: a response whose "value" is a string is
    none of the three outcomes, the [TypeError] of the config interpreter
    comes out of the name interpreter. *)
Lemma current_app_name_raises_on_malformed_value :
  GetCurrentAppConfigCommand_process_response
    (response "ITEM" "VALUE" (VStr "Netflix")) = Raise TypeError /\
  GetCurrentAppNameCommand_process_response "NO APP" "UNKNOWN"
    (response "ITEM" "VALUE" (VStr "Netflix")) = Raise TypeError.
Proof. split; reflexivity. Qed.

(** C2 (amended).  Whenever the response parses to an [AppConfig] [c], the
    name interpreter answers in exactly one of three ways: the "no app
    running" sentinel when [c] equals the default config; the name of the
    first catalog entry matching [c] on ([APP_ID], [NAME_SPACE]) when there
    is one; the "unknown app" sentinel when [c] is not the default and no
    entry matches.  When parsing raises, so does the name interpreter.
    The null response, the Netflix config and the config ("999", 99) fall
    in the first, second and third class, and the first and the third
    answer differ as soon as the two sentinels do. *)
Theorem current_app_name_three_outcomes (NO UNK : string) :
  (forall json_obj c,
      GetCurrentAppConfigCommand_process_response json_obj = Ok c ->
      (AppConfig___eq__ false c default_config = true /\
       GetCurrentAppNameCommand_process_response NO UNK json_obj = Ok NO)
      \/
      (AppConfig___eq__ false c default_config = false /\
       exists e,
         first_passing (pair_matches c) catalog e /\
         GetCurrentAppNameCommand_process_response NO UNK json_obj =
           Ok (name e))
      \/
      (AppConfig___eq__ false c default_config = false /\
       Forall (fun e => pair_matches c e = false) catalog /\
       GetCurrentAppNameCommand_process_response NO UNK json_obj = Ok UNK))
  /\ (forall json_obj e,
        GetCurrentAppConfigCommand_process_response json_obj = Raise e ->
        GetCurrentAppNameCommand_process_response NO UNK json_obj = Raise e)
  /\ GetCurrentAppNameCommand_process_response NO UNK
       (response "ITEM" "VALUE" VNone) = Ok NO
  /\ GetCurrentAppNameCommand_process_response NO UNK
       (response "ITEM" "VALUE" netflix_value) = Ok "Netflix"
  /\ GetCurrentAppNameCommand_process_response NO UNK
       (response "ITEM" "VALUE" uncatalogued_value) = Ok UNK
  /\ (NO <> UNK ->
      GetCurrentAppNameCommand_process_response NO UNK
        (response "ITEM" "VALUE" VNone) <>
      GetCurrentAppNameCommand_process_response NO UNK
        (response "ITEM" "VALUE" uncatalogued_value)).
Proof.
  split; [|split; [|split; [|split; [|split]]]]; try reflexivity.
  - intros json_obj c Hc.
    rewrite (name_response_steps NO UNK json_obj c Hc).
    destruct (AppConfig___eq__ false c default_config); [now left|right].
    destruct (find (pair_matches c) catalog) as [e|] eqn:Hf.
    + left. split; [reflexivity|]. exists e. split; [|reflexivity].
      apply find_first_passing, Hf.
    + right. split; [reflexivity|]. split; [|reflexivity].
      apply Forall_forall. intros e. apply (find_none _ _ Hf).
  - intros json_obj e. apply name_response_raises.
  - intros Hd. change (Ok NO <> Ok UNK). intros [= E]. now apply Hd.
Qed.

Lemma current_app_name_three_outcomes_witness :
  let json_obj := response "ITEM" "VALUE" netflix_value in
  let c := mkAppConfig (VStr "1") (VInt 3) VNone in
  let NO := "NO APP" in
  let UNK := "UNKNOWN" in
  GetCurrentAppConfigCommand_process_response json_obj = Ok c /\
  ((AppConfig___eq__ false c default_config = true /\
    GetCurrentAppNameCommand_process_response NO UNK json_obj = Ok NO)
   \/
   (AppConfig___eq__ false c default_config = false /\
    exists e,
      first_passing (pair_matches c) catalog e /\
      GetCurrentAppNameCommand_process_response NO UNK json_obj =
        Ok (name e))
   \/
   (AppConfig___eq__ false c default_config = false /\
    Forall (fun e => pair_matches c e = false) catalog /\
    GetCurrentAppNameCommand_process_response NO UNK json_obj = Ok UNK)).
Proof.
  split; [reflexivity|].
  exact (proj1 (current_app_name_three_outcomes "NO APP" "UNKNOWN")
           (response "ITEM" "VALUE" netflix_value)
           (mkAppConfig (VStr "1") (VInt 3) VNone) eq_refl).
Defined.

(** *** Reverse lookup *)

(** C3.  For every catalog entry [e], and whatever the message [m], the
    reverse lookup by ([APP_ID], [NAME_SPACE]) of [e] returns the first
    entry of [APP_HOME + APPS] that carries the same pair.  "Toon Goggles"
    and "Vudu" share the pair ("21", 2) and "Toon Goggles" comes first, so
    the lookup returns it, also for the config of "Vudu" itself. *)
Theorem reverse_lookup_returns_first_entry :
  (forall e m,
      In e catalog ->
      exists f,
        first_passing (pair_matches (config_of e m)) catalog f /\
        dict_lookup "APP_ID" (config f) = dict_lookup "APP_ID" (config e) /\
        dict_lookup "NAME_SPACE" (config f) =
          dict_lookup "NAME_SPACE" (config e) /\
        app_def_by_config (config_of e m) = Ok (Some f) /\
        (forall NO UNK,
            GetCurrentAppNameCommand_process_response NO UNK
              (response "ITEM" "VALUE"
                 (AppConfig___dict__ (config_of e m))) =
            Ok (name f)))
  /\ (exists before after,
        catalog = (before ++ toon_goggles :: vudu :: after)%list)
  /\ name toon_goggles = "Toon Goggles"
  /\ name vudu = "Vudu"
  /\ (forall m,
        config_of toon_goggles m = mkAppConfig (VStr "21") (VInt 2) m /\
        config_of vudu m = mkAppConfig (VStr "21") (VInt 2) m /\
        app_def_by_config (mkAppConfig (VStr "21") (VInt 2) m) =
          Ok (Some toon_goggles))
  /\ (forall NO UNK,
        GetCurrentAppNameCommand_process_response NO UNK
          (response "ITEM" "VALUE" (VDict (config vudu))) =
        Ok "Toon Goggles").
Proof.
  split; [|split; [|split; [|split; [|split]]]].
  - intros e m He.
    destruct (find_is_some (pair_matches (config_of e m)) catalog e He
                (pair_matches_own_config e m He)) as [f Hf].
    exists f.
    pose proof (find_first_passing _ _ _ Hf) as Hfirst.
    destruct (find_some _ _ Hf) as [Hin Hm].
    destruct (pair_matches_same_pair e f m He Hin Hm) as [Ha Hn].
    repeat split; auto.
    + now rewrite app_def_by_config_find, Hf.
    + intros NO UNK.
      rewrite (name_response_steps NO UNK _ _
                 (process_response_own_dict (config_of e m))).
      rewrite (config_of_not_default e m He), Hf. reflexivity.
  - exists (firstn 18 catalog), (skipn 20 catalog). reflexivity.
  - reflexivity.
  - reflexivity.
  - intros m. split; [reflexivity|]. split; [reflexivity|].
    rewrite app_def_by_config_find. reflexivity.
  - intros NO UNK. reflexivity.
Qed.

Lemma reverse_lookup_returns_first_entry_witness :
  In vudu catalog /\
  exists f,
    first_passing
      (pair_matches (config_of vudu (VStr "launch"))) catalog f /\
    dict_lookup "APP_ID" (config f) = dict_lookup "APP_ID" (config vudu) /\
    dict_lookup "NAME_SPACE" (config f) =
      dict_lookup "NAME_SPACE" (config vudu) /\
    app_def_by_config (config_of vudu (VStr "launch")) = Ok (Some f) /\
    (forall NO UNK,
        GetCurrentAppNameCommand_process_response NO UNK
          (response "ITEM" "VALUE"
             (AppConfig___dict__ (config_of vudu (VStr "launch")))) =
        Ok (name f)).
Proof.
  assert (In vudu catalog) as Hin.
  { apply (nth_In catalog no_app_def (n := 19)). vm_compute. lia. }
  split; [exact Hin|].
  exact (proj1 reverse_lookup_returns_first_entry vudu (VStr "launch") Hin).
Defined.

(** *** Parsing the response *)

Lemma unexpected_keyword_false (params : list string) (d : pydict) :
  unexpected_keyword params d = false <->
  Forall (fun kv => In (fst kv) params) d.
Proof.
  unfold unexpected_keyword. induction d as [|kv r IH]; simpl.
  - split; auto.
  - rewrite orb_false_iff, negb_false_iff, IH. split.
    + intros [Hk Hr]. constructor; [|exact Hr].
      apply existsb_exists in Hk as (p & Hp & E).
      apply String.eqb_eq in E. now subst.
    + intros H. inversion H as [|? ? Hk Hr]; subst. split; [|exact Hr].
      apply existsb_exists. exists (fst kv). split; [exact Hk|].
      apply String.eqb_refl.
Qed.

Lemma unexpected_keyword_true (params : list string) (d : pydict) :
  Exists (fun kv => ~ In (fst kv) params) d ->
  unexpected_keyword params d = true.
Proof.
  intros H. destruct (unexpected_keyword params d) eqn:E; [reflexivity|].
  apply unexpected_keyword_false in E. rewrite Forall_forall in E.
  apply Exists_exists in H as (kv & Hin & Hk). elim Hk. now apply E.
Qed.

(** The interpreter on a response object, by what the two lookups find. *)
Lemma process_response_cases (top : pydict) :
  GetCurrentAppConfigCommand_process_response (VDict top) =
  match ci_lookup ResponseKey.ITEM top with
  | None => Ok default_config
  | Some (VDict it) =>
      match ci_lookup ResponseKey.VALUE it with
      | None => Ok default_config
      | Some v =>
          if truthy v
          then match v with
               | VDict d => AppConfig___init__ d
               | _ => Raise TypeError
               end
          else Ok default_config
      end
  | Some _ => Raise AttributeError
  end.
Proof.
  unfold GetCurrentAppConfigCommand_process_response.
  unfold dict_get_case_insensitive at 1.
  destruct (ci_lookup ResponseKey.ITEM top) as [item|]; cbn [bind].
  - destruct item; try reflexivity. unfold dict_get_case_insensitive.
    destruct (ci_lookup ResponseKey.VALUE d) as [v|]; cbn [bind].
    + destruct (truthy v); [|reflexivity]. now destruct v.
    + reflexivity.
  - reflexivity.
Qed.

(** C4, as the claim states it: a value object whose fields are spelled
    [app_id], [name_space], [message] is not bound, the call raises. *)
Lemma lowercase_field_names_raise :
  GetCurrentAppConfigCommand_process_response
    (response "ITEM" "VALUE" lowercase_fields_value) = Raise TypeError.
Proof. reflexivity. Qed.

(** C4 (amended).  When the response holds a non-empty "value" object, its
    fields are bound to the [AppConfig] by exact name: if every key is
    exactly [APP_ID], [NAME_SPACE] or [MESSAGE] the result carries those
    field values, a field that is not supplied being null; a key spelled
    otherwise, also in another letter case, makes the call raise
    [TypeError]. *)
Theorem field_binding_is_by_exact_name (top it d : pydict) :
  ci_lookup ResponseKey.ITEM top = Some (VDict it) ->
  ci_lookup ResponseKey.VALUE it = Some (VDict d) ->
  d <> [] ->
  (Forall (fun kv => In (fst kv) field_names) d ->
   GetCurrentAppConfigCommand_process_response (VDict top) =
   Ok (mkAppConfig (field d "APP_ID") (field d "NAME_SPACE")
         (field d "MESSAGE")))
  /\
  (Exists (fun kv => ~ In (fst kv) field_names) d ->
   GetCurrentAppConfigCommand_process_response (VDict top) = Raise TypeError).
Proof.
  intros Hi Hv Hd. rewrite process_response_cases, Hi, Hv.
  destruct d as [|kv r]; [now elim Hd|]. cbn [truthy]. split; intros H.
  - apply AppConfig_init_known_keys, unexpected_keyword_false, H.
  - apply AppConfig_init_unknown_key, unexpected_keyword_true, H.
Qed.

Lemma field_binding_is_by_exact_name_witness :
  let d := [("APP_ID", VStr "1"); ("NAME_SPACE", VInt 3)] in
  let it := [("VALUE", VDict d)] in
  let top := [("ITEM", VDict it)] in
  ci_lookup ResponseKey.ITEM top = Some (VDict it) /\
  ci_lookup ResponseKey.VALUE it = Some (VDict d) /\
  Forall (fun kv => In (fst kv) field_names) d /\
  GetCurrentAppConfigCommand_process_response (VDict top) =
  Ok (mkAppConfig (VStr "1") (VInt 3) VNone).
Proof.
  assert (Forall (fun kv : string * value => In (fst kv) field_names)
            [("APP_ID", VStr "1"); ("NAME_SPACE", VInt 3)]) as Hk.
  { apply unexpected_keyword_false. reflexivity. }
  split; [reflexivity|]. split; [reflexivity|]. split; [exact Hk|].
  refine (proj1 (field_binding_is_by_exact_name
                   [("ITEM", VDict [("VALUE", netflix_value)])]
                   [("VALUE", netflix_value)]
                   [("APP_ID", VStr "1"); ("NAME_SPACE", VInt 3)]
                   eq_refl eq_refl _) Hk).
  discriminate.
Defined.

(** C5, as the claim states it: a "value" that is a string, or an object
    with a field beyond the three, makes the interpreter raise. *)
Lemma malformed_value_raises :
  GetCurrentAppConfigCommand_process_response
    (response "ITEM" "VALUE" (VStr "Netflix")) = Raise TypeError /\
  GetCurrentAppConfigCommand_process_response
    (response "ITEM" "VALUE" extra_field_value) = Raise TypeError.
Proof. split; reflexivity. Qed.

(** C5 (amended).  Missing fields never make the interpreter raise: on a
    response object where "item" is missing, or is an object whose "value"
    is missing, falsy, or an object with no key besides [APP_ID],
    [NAME_SPACE] and [MESSAGE], it returns an [AppConfig], in which every
    field that was not supplied is null. *)
Theorem missing_fields_do_not_raise (top : pydict) :
  (ci_lookup ResponseKey.ITEM top = None ->
   GetCurrentAppConfigCommand_process_response (VDict top) =
   Ok default_config)
  /\
  (forall it,
      ci_lookup ResponseKey.ITEM top = Some (VDict it) ->
      (ci_lookup ResponseKey.VALUE it = None ->
       GetCurrentAppConfigCommand_process_response (VDict top) =
       Ok default_config)
      /\
      (forall v,
          ci_lookup ResponseKey.VALUE it = Some v -> truthy v = false ->
          GetCurrentAppConfigCommand_process_response (VDict top) =
          Ok default_config)
      /\
      (forall d,
          ci_lookup ResponseKey.VALUE it = Some (VDict d) ->
          Forall (fun kv => In (fst kv) field_names) d ->
          GetCurrentAppConfigCommand_process_response (VDict top) =
          Ok (mkAppConfig (field d "APP_ID") (field d "NAME_SPACE")
                (field d "MESSAGE"))
          /\
          (forall k, dict_lookup k d = None -> field d k = VNone))).
Proof.
  split; [intros Hi; now rewrite process_response_cases, Hi|].
  intros it Hi. rewrite process_response_cases, Hi.
  split; [intros Hv; now rewrite Hv|].
  split; [intros v Hv Hf; now rewrite Hv, Hf|].
  intros d Hv Hk. rewrite Hv. split.
  - destruct d as [|kv r]; [reflexivity|]. cbn [truthy].
    apply AppConfig_init_known_keys, unexpected_keyword_false, Hk.
  - intros k Hnone. unfold field. now rewrite Hnone.
Qed.

Lemma missing_fields_do_not_raise_witness :
  let d := [("APP_ID", VStr "1")] in
  let it := [("VALUE", VDict d)] in
  let top := [("ITEM", VDict it)] in
  ci_lookup ResponseKey.ITEM top = Some (VDict it) /\
  ci_lookup ResponseKey.VALUE it = Some (VDict d) /\
  Forall (fun kv => In (fst kv) field_names) d /\
  GetCurrentAppConfigCommand_process_response (VDict top) =
  Ok (mkAppConfig (VStr "1") VNone VNone).
Proof.
  assert (Forall (fun kv : string * value => In (fst kv) field_names)
            [("APP_ID", VStr "1")]) as Hk.
  { apply unexpected_keyword_false. reflexivity. }
  split; [reflexivity|]. split; [reflexivity|]. split; [exact Hk|].
  exact (proj1 (proj2 (proj2 (proj2 (missing_fields_do_not_raise
                   [("ITEM", VDict [("VALUE", VDict [("APP_ID", VStr "1")])])])
                   [("VALUE", VDict [("APP_ID", VStr "1")])] eq_refl))
                   [("APP_ID", VStr "1")] eq_refl Hk)).
Defined.

(** C7.  Under any spelling of the keys that lowercases to "item" and
    "value", a null value gives the default [AppConfig], all fields null,
    and the value [{"APP_ID": "1", "NAME_SPACE": 3}] gives
    [AppConfig("1", 3, None)]. *)
Theorem current_app_config_examples (item_key value_key : string) :
  lower item_key = "item" ->
  lower value_key = "value" ->
  GetCurrentAppConfigCommand_process_response
    (response item_key value_key VNone) = Ok default_config /\
  GetCurrentAppConfigCommand_process_response
    (response item_key value_key netflix_value) =
  Ok (mkAppConfig (VStr "1") (VInt 3) VNone).
Proof.
  intros Hi Hv. split.
  - destruct (response_item_value item_key value_key VNone Hi Hv) as [A B].
    now rewrite (process_response_steps _ _ _ A B).
  - destruct (response_item_value item_key value_key netflix_value Hi Hv)
      as [A B].
    now rewrite (process_response_steps _ _ _ A B).
Qed.

Lemma current_app_config_examples_witness :
  lower "ITEM" = "item" /\
  lower "VALUE" = "value" /\
  GetCurrentAppConfigCommand_process_response
    (response "ITEM" "VALUE" VNone) = Ok default_config /\
  GetCurrentAppConfigCommand_process_response
    (response "ITEM" "VALUE" netflix_value) =
  Ok (mkAppConfig (VStr "1") (VInt 3) VNone).
Proof.
  split; [reflexivity|]. split; [reflexivity|].
  exact (current_app_config_examples "ITEM" "VALUE" eq_refl eq_refl).
Defined.

(** C9.  The "value" is tested for truth, not for presence: when it is
    there but falsy ([None], [False], [0], an empty string, list or dict)
    the result is the default [AppConfig], exactly what a response without
    any "value" gives; [{"ITEM": {"VALUE": {}}}] is such a response. *)
Theorem falsy_value_is_no_value (top it : pydict) (v : value) :
  ci_lookup ResponseKey.ITEM top = Some (VDict it) ->
  ci_lookup ResponseKey.VALUE it = Some v ->
  truthy v = false ->
  (v = VNone \/ v = VBool false \/ v = VInt 0 \/ v = VStr EmptyString \/
   v = VList [] \/ v = VDict [])
  /\
  GetCurrentAppConfigCommand_process_response (VDict top) =
    Ok default_config
  /\
  (forall top' it',
      ci_lookup ResponseKey.ITEM top' = Some (VDict it') ->
      ci_lookup ResponseKey.VALUE it' = None ->
      GetCurrentAppConfigCommand_process_response (VDict top) =
      GetCurrentAppConfigCommand_process_response (VDict top'))
  /\
  GetCurrentAppConfigCommand_process_response
    (response "ITEM" "VALUE" (VDict [])) =
  GetCurrentAppConfigCommand_process_response (response_without_value "ITEM").
Proof.
  intros Hi Hv Hf. rewrite process_response_cases, Hi, Hv, Hf.
  split; [now apply truthy_false_iff|].
  split; [reflexivity|]. split; [|reflexivity].
  intros top' it' Hi' Hv'. now rewrite process_response_cases, Hi', Hv'.
Qed.

Lemma falsy_value_is_no_value_witness :
  let it := [("VALUE", VDict [])] in
  let top := [("ITEM", VDict it)] in
  ci_lookup ResponseKey.ITEM top = Some (VDict it) /\
  ci_lookup ResponseKey.VALUE it = Some (VDict []) /\
  truthy (VDict []) = false /\
  GetCurrentAppConfigCommand_process_response (VDict top) =
    Ok default_config.
Proof.
  split; [reflexivity|]. split; [reflexivity|]. split; [reflexivity|].
  exact (proj1 (proj2 (falsy_value_is_no_value
                  [("ITEM", VDict [("VALUE", VDict [])])]
                  [("VALUE", VDict [])] (VDict [])
                  eq_refl eq_refl eq_refl))).
Defined.

(** *** Lookup by name *)

Lemma find_own_name (e : AppDef) :
  In e catalog -> find (name_matches (name e)) catalog = Some e.
Proof.
  intros He. cbv [catalog APP_HOME APPS app In] in He.
  repeat (destruct He as [<-|He]; [vm_compute; reflexivity|]).
  contradiction.
Qed.

Lemma find_recased_name (e : AppDef) (mask : list bool) :
  In e catalog ->
  find (name_matches (recase mask (name e))) catalog = Some e.
Proof.
  intros He. rewrite <- (find_own_name e He) at 1.
  apply find_ext_in. intros x _. unfold name_matches.
  now rewrite lower_recase.
Qed.

(** C6.  Lookup by name ignores letter case and covers the whole catalog:
    for every entry and every way of swapping the case of letters of its
    name, the lookup returns that very entry, the first of
    [APP_HOME + APPS] whose name matches; a name that matches no entry
    finds nothing; and launching "Netflix" on a device type that has a
    launch endpoint builds a request carrying [AppConfig("1", 3, None)]. *)
Theorem name_lookup_is_case_insensitive :
  (forall e mask,
      In e catalog ->
      first_passing (name_matches (recase mask (name e))) catalog e /\
      app_def_by_name (recase mask (name e)) = Ok (Some e))
  /\
  (forall app_name,
      Forall (fun e => name_matches app_name e = false) catalog ->
      app_def_by_name app_name = Ok None)
  /\
  (forall ENDPOINT device_type by_device endpoint,
      dict_lookup device_type ENDPOINT = Some by_device ->
      dict_lookup "LAUNCH_APP" by_device = Some endpoint ->
      LaunchAppNameCommand_init ENDPOINT device_type "Netflix" =
      Ok (mkLaunch endpoint (mkAppConfig (VStr "1") (VInt 3) VNone))).
Proof.
  split; [|split].
  - intros e mask He. pose proof (find_recased_name e mask He) as Hf.
    split; [apply find_first_passing, Hf|].
    now rewrite app_def_by_name_find, Hf.
  - intros app_name H.
    now rewrite app_def_by_name_find, (find_none_of_Forall _ _ H).
  - intros ENDPOINT device_type by_device endpoint Hd He.
    unfold LaunchAppNameCommand_init. rewrite app_def_by_name_find.
    change (find (name_matches "Netflix") catalog)
      with (Some (nth 13 catalog no_app_def)).
    cbn [bind]. unfold LaunchAppConfigCommand_init, subscript.
    rewrite Hd. cbn. now rewrite He.
Qed.

Lemma name_lookup_is_case_insensitive_witness :
  let ENDPOINT := [("tv", [("LAUNCH_APP", "/app/launch")])] in
  In vudu catalog /\
  recase [true; false; true] (name vudu) = "vuDu" /\
  app_def_by_name "vuDu" = Ok (Some vudu) /\
  LaunchAppNameCommand_init ENDPOINT "tv" "Netflix" =
  Ok (mkLaunch "/app/launch" (mkAppConfig (VStr "1") (VInt 3) VNone)).
Proof.
  assert (In vudu catalog) as Hin.
  { apply (nth_In catalog no_app_def (n := 19)). vm_compute. lia. }
  split; [exact Hin|]. split; [reflexivity|]. split.
  - exact (proj2 (proj1 name_lookup_is_case_insensitive
                    vudu [true; false; true] Hin)).
  - exact (proj2 (proj2 name_lookup_is_case_insensitive)
             [("tv", [("LAUNCH_APP", "/app/launch")])] "tv"
             [("LAUNCH_APP", "/app/launch")] "/app/launch"
             eq_refl eq_refl).
Defined.

(** *** Equality of configs *)

Lemma pairwise_equal_refl (a : AppConfig) :
  wf_value (AppConfig___dict__ a) = true -> pairwise_equal a a = true.
Proof.
  destruct a as [x y z]. unfold pairwise_equal. simpl.
  rewrite andb_true_r, !andb_true_iff. intros (Hx & Hy & Hz).
  repeat split; now apply py_eq_refl.
Qed.

(** C8.  [==] on [AppConfig] is structural: two instances held in the
    store, the same one or not, compare equal exactly when their three
    attributes are pairwise equal. *)
Theorem AppConfig_equality_is_structural
  (h : store) (r1 r2 : ref) (a b : AppConfig) :
  nth_error h r1 = Some a ->
  nth_error h r2 = Some b ->
  wf_value (AppConfig___dict__ a) = true ->
  eq_instances h r1 r2 = Some (pairwise_equal a b) /\
  (eq_instances h r1 r2 = Some true <->
   py_eq (APP_ID a) (APP_ID b) = true /\
   py_eq (NAME_SPACE a) (NAME_SPACE b) = true /\
   py_eq (MESSAGE a) (MESSAGE b) = true).
Proof.
  intros Ha Hb Hwf.
  assert (eq_instances h r1 r2 = Some (pairwise_equal a b)) as E.
  { unfold eq_instances. rewrite Ha, Hb. f_equal.
    unfold AppConfig___eq__. destruct (Nat.eqb_spec r1 r2) as [->|_].
    - rewrite Ha in Hb. injection Hb as <-.
      now rewrite (pairwise_equal_refl a Hwf).
    - apply AppConfig_eq_distinct. }
  split; [exact E|]. rewrite E. unfold pairwise_equal. split.
  - intros [= H]. apply andb_true_iff in H as [H H3].
    apply andb_true_iff in H as [H1 H2]. auto.
  - intros (H1 & H2 & H3). now rewrite H1, H2, H3.
Qed.

Lemma AppConfig_equality_is_structural_witness :
  let a := mkAppConfig (VStr "1") (VInt 3) VNone in
  let h := [a; a] in
  nth_error h 0 = Some a /\
  nth_error h 1 = Some a /\
  eq_instances h 0 1 = Some true.
Proof.
  split; [reflexivity|]. split; [reflexivity|].
  exact (proj1 (AppConfig_equality_is_structural
                  [mkAppConfig (VStr "1") (VInt 3) VNone;
                   mkAppConfig (VStr "1") (VInt 3) VNone] 0 1
                  (mkAppConfig (VStr "1") (VInt 3) VNone)
                  (mkAppConfig (VStr "1") (VInt 3) VNone)
                  eq_refl eq_refl eq_refl)).
Defined.

(** *** No coercion in the reverse lookup *)

Lemma string_name_space_matches_nothing (c : AppConfig) (s : string) :
  NAME_SPACE c = VStr s ->
  Forall (fun f => pair_matches c f = false) catalog.
Proof.
  intros Hs. apply Forall_forall. intros f Hf.
  destruct (catalog_entry_typed f Hf) as (a & n & Ha & Hn).
  unfold pair_matches. rewrite Ha, Hn, Hs, py_eq_int_str.
  apply andb_false_r.
Qed.

(** C10.  The reverse lookup compares with [==], which never takes a
    string for a number: a parsed config whose [NAME_SPACE] is the decimal
    string of a catalog entry's integer [NAME_SPACE] matches no entry, and
    the answer is the "unknown app" sentinel. *)
Theorem string_name_space_is_unknown_app
  (NO UNK : string) (e : AppDef) (n : Z) (json_obj : value) (c : AppConfig) :
  In e catalog ->
  dict_lookup "NAME_SPACE" (config e) = Some (VInt n) ->
  GetCurrentAppConfigCommand_process_response json_obj = Ok c ->
  NAME_SPACE c = VStr (str_of_int n) ->
  Forall (fun f => pair_matches c f = false) catalog /\
  GetCurrentAppNameCommand_process_response NO UNK json_obj = Ok UNK.
Proof.
  intros _ _ Hc Hs.
  pose proof (string_name_space_matches_nothing c _ Hs) as Hnone.
  split; [exact Hnone|].
  rewrite (name_response_steps NO UNK json_obj c Hc).
  destruct (AppConfig___eq__ false c default_config) eqn:E.
  - apply AppConfig_eq_default in E. subst c. discriminate Hs.
  - now rewrite (find_none_of_Forall _ _ Hnone).
Qed.

Lemma string_name_space_is_unknown_app_witness :
  let json_obj := response "ITEM" "VALUE" netflix_with_string_name_space in
  let c := mkAppConfig (VStr "1") (VStr "3") VNone in
  In netflix catalog /\
  name netflix = "Netflix" /\
  dict_lookup "NAME_SPACE" (config netflix) = Some (VInt 3) /\
  GetCurrentAppConfigCommand_process_response json_obj = Ok c /\
  GetCurrentAppNameCommand_process_response "NO APP" "UNKNOWN" json_obj =
    Ok "UNKNOWN".
Proof.
  assert (In netflix catalog) as Hin.
  { apply (nth_In catalog no_app_def (n := 13)). vm_compute. lia. }
  split; [exact Hin|]. split; [reflexivity|]. split; [reflexivity|].
  split; [reflexivity|].
  exact (proj2 (string_name_space_is_unknown_app "NO APP" "UNKNOWN"
                  netflix 3
                  (response "ITEM" "VALUE" netflix_with_string_name_space)
                  (mkAppConfig (VStr "1") (VStr "3") VNone)
                  Hin eq_refl eq_refl eq_refl)).
Defined.

End AppsSpec.

(** ** Further properties of the commands *)

Module AppsMore.
Import Py Helpers Apps PyFacts AppsSpec.
Local Open Scope string_scope.

(** *** Binding the arguments of a launch *)

Lemma keyword_arg_optional (kwargs : pydict) (k : string) :
  keyword_arg kwargs k (Some VNone) = Ok (field kwargs k).
Proof. unfold keyword_arg, field. now destruct (dict_lookup k kwargs). Qed.

Lemma keyword_arg_required (kwargs : pydict) (k : string) :
  keyword_arg kwargs k None =
  match dict_lookup k kwargs with
  | Some v => Ok v
  | None => Raise TypeError
  end.
Proof. unfold keyword_arg. now destruct (dict_lookup k kwargs). Qed.

Lemma unexpected_keyword_Exists (params : list string) (d : pydict) :
  unexpected_keyword params d = true ->
  Exists (fun kv => ~ In (fst kv) params) d.
Proof.
  unfold unexpected_keyword. intros H.
  apply existsb_exists in H as (kv & Hin & Hk).
  apply Exists_exists. exists kv. split; [exact Hin|].
  intros Hp. apply negb_true_iff in Hk.
  assert (existsb (String.eqb (fst kv)) params = true) as E; [|congruence].
  apply existsb_exists. exists (fst kv). split; [exact Hp|].
  apply String.eqb_refl.
Qed.

(** With bindable arguments only the endpoint is left to resolve. *)
Lemma launch_by_config_bound
  (ENDPOINT : list (string * list (string * string)))
  (device_type : string) (kwargs : pydict) :
  bindable_kwargs kwargs = true ->
  LaunchAppConfigCommand_init ENDPOINT device_type kwargs =
  launch_request ENDPOINT device_type
    (mkAppConfig (field kwargs "APP_ID") (field kwargs "NAME_SPACE")
       (field kwargs "MESSAGE")).
Proof.
  unfold bindable_kwargs. intros H. apply andb_true_iff in H as [Hk Hr].
  apply negb_true_iff in Hk.
  unfold LaunchAppConfigCommand_init. fold field_names. rewrite Hk.
  rewrite !keyword_arg_required, keyword_arg_optional. unfold field.
  destruct (dict_lookup "APP_ID" kwargs); [|discriminate].
  destruct (dict_lookup "NAME_SPACE" kwargs); [|discriminate].
  reflexivity.
Qed.

Lemma launch_by_config_unbound
  (ENDPOINT : list (string * list (string * string)))
  (device_type : string) (kwargs : pydict) :
  bindable_kwargs kwargs = false ->
  LaunchAppConfigCommand_init ENDPOINT device_type kwargs = Raise TypeError.
Proof.
  unfold bindable_kwargs, LaunchAppConfigCommand_init. fold field_names.
  destruct (unexpected_keyword field_names kwargs); [reflexivity|].
  rewrite !keyword_arg_required. simpl.
  destruct (dict_lookup "APP_ID" kwargs); [|reflexivity].
  destruct (dict_lookup "NAME_SPACE" kwargs); [discriminate|reflexivity].
Qed.

Lemma catalog_bindable :
  forallb (fun e => bindable_kwargs (config e)) catalog = true.
Proof. vm_compute. reflexivity. Qed.

Lemma launch_entry_config
  (ENDPOINT : list (string * list (string * string)))
  (device_type : string) (e : AppDef) :
  In e catalog ->
  LaunchAppConfigCommand_init ENDPOINT device_type (config e) =
  launch_request ENDPOINT device_type (entry_config e).
Proof.
  intros He. apply launch_by_config_bound.
  apply (proj1 (forallb_forall _ _) catalog_bindable e He).
Qed.

Lemma bindable_kwargs_true (kwargs : pydict) :
  Forall (fun kv => In (fst kv) field_names) kwargs ->
  dict_lookup "APP_ID" kwargs <> None ->
  dict_lookup "NAME_SPACE" kwargs <> None ->
  bindable_kwargs kwargs = true.
Proof.
  intros Hk Ha Hn. unfold bindable_kwargs.
  rewrite (proj2 (unexpected_keyword_false _ _) Hk). simpl.
  destruct (dict_lookup "APP_ID" kwargs); [|now elim Ha].
  destruct (dict_lookup "NAME_SPACE" kwargs); [reflexivity|now elim Hn].
Qed.

Lemma bindable_kwargs_false (kwargs : pydict) :
  Exists (fun kv => ~ In (fst kv) field_names) kwargs \/
  dict_lookup "APP_ID" kwargs = None \/
  dict_lookup "NAME_SPACE" kwargs = None ->
  bindable_kwargs kwargs = false.
Proof.
  unfold bindable_kwargs. intros [H|[H|H]].
  - now rewrite (unexpected_keyword_true _ _ H).
  - rewrite H. apply andb_false_r.
  - rewrite H. destruct (dict_lookup "APP_ID" kwargs); apply andb_false_r.
Qed.

(** X1.  [LaunchAppNameCommand] either resolves the name or raises: when
    some entry of [APP_HOME + APPS] has the name, letter case aside, the
    command is the one [LaunchAppConfigCommand] builds from the config of
    the first such entry, stored message included, and only the endpoint
    lookup can still fail; when none has, it raises [TypeError] whatever
    the device type and the endpoint table. *)
Theorem launch_by_name_resolves_or_raises
  (ENDPOINT : list (string * list (string * string)))
  (device_type app_name : string) :
  (exists e,
      first_passing (name_matches app_name) catalog e /\
      LaunchAppNameCommand_init ENDPOINT device_type app_name =
      LaunchAppConfigCommand_init ENDPOINT device_type (config e) /\
      LaunchAppNameCommand_init ENDPOINT device_type app_name =
      launch_request ENDPOINT device_type (entry_config e))
  \/
  (Forall (fun e => name_matches app_name e = false) catalog /\
   LaunchAppNameCommand_init ENDPOINT device_type app_name = Raise TypeError).
Proof.
  unfold LaunchAppNameCommand_init. rewrite app_def_by_name_find.
  destruct (find (name_matches app_name) catalog) as [e|] eqn:Hf; cbn [bind].
  - left. exists e. destruct (find_some _ _ Hf) as [He _].
    split; [apply find_first_passing, Hf|]. split; [reflexivity|].
    apply launch_entry_config, He.
  - right. split; [|reflexivity].
    apply Forall_forall. intros e. apply (find_none _ _ Hf).
Qed.

(** X2.  How [LaunchAppConfigCommand.__init__] ends when its config comes
    as keyword arguments.  A key that is none of [APP_ID], [NAME_SPACE],
    [MESSAGE], or a missing [APP_ID] or [NAME_SPACE], raises [TypeError]
    before the endpoint is looked at.  Otherwise an unknown device type, or
    a device type without a "LAUNCH_APP" endpoint, raises [KeyError]; and
    with an endpoint the command carries the given values unchecked, a
    missing [MESSAGE] being [None]. *)
Theorem launch_by_config_outcomes
  (ENDPOINT : list (string * list (string * string)))
  (device_type : string) (kwargs : pydict) :
  (Exists (fun kv => ~ In (fst kv) field_names) kwargs \/
   dict_lookup "APP_ID" kwargs = None \/
   dict_lookup "NAME_SPACE" kwargs = None ->
   LaunchAppConfigCommand_init ENDPOINT device_type kwargs = Raise TypeError)
  /\
  (Forall (fun kv => In (fst kv) field_names) kwargs ->
   dict_lookup "APP_ID" kwargs <> None ->
   dict_lookup "NAME_SPACE" kwargs <> None ->
   (dict_lookup device_type ENDPOINT = None ->
    LaunchAppConfigCommand_init ENDPOINT device_type kwargs = Raise KeyError)
   /\
   (forall by_device,
       dict_lookup device_type ENDPOINT = Some by_device ->
       dict_lookup "LAUNCH_APP" by_device = None ->
       LaunchAppConfigCommand_init ENDPOINT device_type kwargs =
       Raise KeyError)
   /\
   (forall by_device endpoint,
       dict_lookup device_type ENDPOINT = Some by_device ->
       dict_lookup "LAUNCH_APP" by_device = Some endpoint ->
       LaunchAppConfigCommand_init ENDPOINT device_type kwargs =
       Ok (mkLaunch endpoint
             (mkAppConfig (field kwargs "APP_ID") (field kwargs "NAME_SPACE")
                (field kwargs "MESSAGE"))))).
Proof.
  split.
  - intros H. apply launch_by_config_unbound, bindable_kwargs_false, H.
  - intros Hk Ha Hn.
    rewrite (launch_by_config_bound ENDPOINT device_type kwargs
               (bindable_kwargs_true kwargs Hk Ha Hn)).
    unfold launch_request, subscript. split; [|split].
    + intros Hd. now rewrite Hd.
    + intros by_device Hd He. rewrite Hd. cbn [bind]. now rewrite He.
    + intros by_device endpoint Hd He. rewrite Hd. cbn [bind].
      now rewrite He.
Qed.

Lemma launch_by_config_outcomes_witness :
  let ENDPOINT := [("tv", [("LAUNCH_APP", "/app/launch")])] in
  let kwargs := [("NAME_SPACE", VInt 3); ("APP_ID", VStr "1")] in
  Forall (fun kv => In (fst kv) field_names) kwargs /\
  dict_lookup "MESSAGE" kwargs = None /\
  LaunchAppConfigCommand_init ENDPOINT "tv" kwargs =
  Ok (mkLaunch "/app/launch" (mkAppConfig (VStr "1") (VInt 3) VNone)).
Proof.
  assert (Forall (fun kv : string * value => In (fst kv) field_names)
            [("NAME_SPACE", VInt 3); ("APP_ID", VStr "1")]) as Hk.
  { apply unexpected_keyword_false. reflexivity. }
  split; [exact Hk|]. split; [reflexivity|].
  refine (proj2 (proj2 (proj2 (launch_by_config_outcomes
            [("tv", [("LAUNCH_APP", "/app/launch")])] "tv"
            [("NAME_SPACE", VInt 3); ("APP_ID", VStr "1")]) Hk _ _))
            [("LAUNCH_APP", "/app/launch")] "/app/launch" eq_refl eq_refl);
    discriminate.
Defined.

(** *** From a launch back to a name *)

(** What the reverse lookup finds for the config of each entry. *)
Lemma reverse_lookup_of_entry (e : AppDef) (m : value) :
  In e catalog ->
  find (pair_matches (config_of e m)) catalog =
  Some (if String.eqb (name e) "Vudu" then toon_goggles else e).
Proof.
  intros He. cbv [catalog APP_HOME APPS app In] in He.
  repeat (destruct He as [<-|He]; [vm_compute; reflexivity|]).
  contradiction.
Qed.

Lemma named_vudu_is_vudu (e : AppDef) :
  In e catalog -> name e = "Vudu" -> e = vudu.
Proof.
  intros He Hn. pose proof (find_own_name e He) as Hf.
  rewrite Hn in Hf. vm_compute in Hf. injection Hf as <-.
  vm_compute. reflexivity.
Qed.

Lemma launch_own_name
  (ENDPOINT : list (string * list (string * string)))
  (device_type : string) (e : AppDef) :
  In e catalog ->
  LaunchAppNameCommand_init ENDPOINT device_type (name e) =
  launch_request ENDPOINT device_type (entry_config e).
Proof.
  intros He. unfold LaunchAppNameCommand_init.
  rewrite app_def_by_name_find, (find_own_name e He). cbn [bind get_config].
  apply launch_entry_config, He.
Qed.

Lemma launch_request_value
  (ENDPOINT : list (string * list (string * string)))
  (device_type : string) (c : AppConfig) (cmd : LaunchAppConfigCommand) :
  launch_request ENDPOINT device_type c = Ok cmd -> VALUE cmd = c.
Proof.
  unfold launch_request.
  destruct (subscript ENDPOINT device_type) as [by_device|]; cbn [bind];
    [|discriminate].
  destruct (subscript by_device "LAUNCH_APP"); cbn [bind]; [|discriminate].
  now intros [= <-].
Qed.

(** X3.  Launching and asking back agree: when launching a catalog entry
    other than "Vudu" by its name builds a command, a device that reports
    the config of that command as its current app is answered with the
    very name that was launched. *)
Theorem launched_app_is_named_back
  (ENDPOINT : list (string * list (string * string)))
  (NO UNK device_type : string) (e : AppDef)
  (cmd : LaunchAppConfigCommand) :
  In e catalog ->
  name e <> "Vudu" ->
  LaunchAppNameCommand_init ENDPOINT device_type (name e) = Ok cmd ->
  VALUE cmd = entry_config e /\
  GetCurrentAppNameCommand_process_response NO UNK
    (response "ITEM" "VALUE" (AppConfig___dict__ (VALUE cmd))) =
  Ok (name e).
Proof.
  intros He Hv Hl. rewrite (launch_own_name ENDPOINT device_type e He) in Hl.
  apply launch_request_value in Hl. split; [exact Hl|]. rewrite Hl.
  rewrite (name_response_steps NO UNK _ _
             (process_response_own_dict (entry_config e))).
  change (entry_config e)
    with (config_of e (field (config e) "MESSAGE")).
  rewrite (config_of_not_default e _ He), (reverse_lookup_of_entry e _ He).
  apply String.eqb_neq in Hv. rewrite Hv. reflexivity.
Qed.

Lemma launched_app_is_named_back_witness :
  let ENDPOINT := [("tv", [("LAUNCH_APP", "/app/launch")])] in
  let cmd := mkLaunch "/app/launch" (mkAppConfig (VStr "1") (VInt 3) VNone) in
  In netflix catalog /\
  LaunchAppNameCommand_init ENDPOINT "tv" (name netflix) = Ok cmd /\
  GetCurrentAppNameCommand_process_response "NO APP" "UNKNOWN"
    (response "ITEM" "VALUE" (AppConfig___dict__ (VALUE cmd))) =
  Ok "Netflix".
Proof.
  assert (In netflix catalog) as Hin.
  { apply (nth_In catalog no_app_def (n := 13)). vm_compute. lia. }
  assert (name netflix <> "Vudu") as Hne by discriminate.
  split; [exact Hin|]. split; [reflexivity|].
  exact (proj2 (launched_app_is_named_back
                  [("tv", [("LAUNCH_APP", "/app/launch")])]
                  "NO APP" "UNKNOWN" "tv" netflix
                  (mkLaunch "/app/launch"
                     (mkAppConfig (VStr "1") (VInt 3) VNone))
                  Hin Hne eq_refl)).
Defined.

(** X4.  The pairs ([APP_ID], [NAME_SPACE]) of the catalog identify its
    entries, with one exception: two entries that share the pair are the
    same entry, or they are "Toon Goggles" and "Vudu". *)
Theorem catalog_pairs_distinct_but_one (e f : AppDef) :
  In e catalog ->
  In f catalog ->
  dict_lookup "APP_ID" (config e) = dict_lookup "APP_ID" (config f) ->
  dict_lookup "NAME_SPACE" (config e) = dict_lookup "NAME_SPACE" (config f) ->
  e = f \/ (e = toon_goggles /\ f = vudu) \/ (e = vudu /\ f = toon_goggles).
Proof.
  intros He Hf Ha Hn.
  pose proof (reverse_lookup_of_entry e VNone He) as Le.
  pose proof (reverse_lookup_of_entry f VNone Hf) as Lf.
  assert (config_of e VNone = config_of f VNone) as E.
  { unfold config_of. now rewrite Ha, Hn. }
  rewrite E, Lf in Le. injection Le as Le.
  destruct (String.eqb_spec (name e) "Vudu") as [Ne|_];
    destruct (String.eqb_spec (name f) "Vudu") as [Nf|_].
  - left. now rewrite (named_vudu_is_vudu e He Ne), (named_vudu_is_vudu f Hf Nf).
  - right. right. split; [apply named_vudu_is_vudu; auto|exact Le].
  - right. left. split; [now symmetry|apply named_vudu_is_vudu; auto].
  - left. now symmetry.
Qed.

Lemma catalog_pairs_distinct_but_one_witness :
  In toon_goggles catalog /\
  In vudu catalog /\
  (toon_goggles = vudu \/
   (toon_goggles = toon_goggles /\ vudu = vudu) \/
   (toon_goggles = vudu /\ vudu = toon_goggles)).
Proof.
  assert (In toon_goggles catalog) as Ht.
  { apply (nth_In catalog no_app_def (n := 18)). vm_compute. lia. }
  assert (In vudu catalog) as Hv.
  { apply (nth_In catalog no_app_def (n := 19)). vm_compute. lia. }
  split; [exact Ht|]. split; [exact Hv|].
  exact (catalog_pairs_distinct_but_one toon_goggles vudu Ht Hv
           eq_refl eq_refl).
Defined.

(** X5.  Lookup by name is exact and unambiguous: it returns an entry
    precisely when that entry is in the catalog and its name equals the
    given one once both are lowercased, and no two entries of the catalog
    have names that differ by letter case only. *)
Theorem name_lookup_characterised :
  (forall app_name e,
      app_def_by_name app_name = Ok (Some e) <->
      In e catalog /\ lower (name e) = lower app_name)
  /\
  (forall e f,
      In e catalog -> In f catalog ->
      lower (name e) = lower (name f) -> e = f).
Proof.
  assert (forall s e, In e catalog -> lower (name e) = lower s ->
                      find (name_matches s) catalog = Some e) as K.
  { intros s e He Hs. rewrite <- (find_own_name e He) at 1.
    apply find_ext_in. intros x _. unfold name_matches. now rewrite Hs. }
  split.
  - intros s e. rewrite app_def_by_name_find. split.
    + intros H.
      assert (find (name_matches s) catalog = Some e) as Hf by congruence.
      destruct (find_some _ _ Hf) as [He Hm].
      split; [exact He|]. now apply String.eqb_eq in Hm.
    + intros [He Hs]. now rewrite (K s e He Hs).
  - intros e f He Hf Hs.
    pose proof (K (name f) e He Hs) as H1.
    rewrite (find_own_name f Hf) in H1. now injection H1.
Qed.

Lemma name_lookup_characterised_witness :
  In netflix catalog /\
  lower (name netflix) = lower "nEtFlIx" /\
  app_def_by_name "nEtFlIx" = Ok (Some netflix).
Proof.
  assert (In netflix catalog) as Hin.
  { apply (nth_In catalog no_app_def (n := 13)). vm_compute. lia. }
  split; [exact Hin|]. split; [reflexivity|].
  exact (proj2 (proj1 name_lookup_characterised "nEtFlIx" netflix)
           (conj Hin eq_refl)).
Defined.

(** *** What the reverse lookup compares *)





Lemma pair_matches_without_app_id (c : AppConfig) :
  APP_ID c = VNone ->
  Forall (fun e => pair_matches c e = false) catalog.
Proof.
  intros Hc. apply Forall_forall. intros e He.
  destruct (catalog_entry_typed e He) as (a & n & Ha & Hn).
  unfold pair_matches. now rewrite Ha, Hn, Hc.
Qed.

(** X7.  The reported [MESSAGE] changes the answer of the name interpreter
    only when the device reports neither [APP_ID] nor [NAME_SPACE]: two
    parsed configs that agree on the two and carry at least one of them
    get the same answer, whatever their messages; with both null, the
    answer is "no app running" for a null message and "unknown app" for
    any other. *)
Theorem message_matters_only_without_ids
  (NO UNK : string) (json_obj json_obj' : value) (c c' : AppConfig) :
  GetCurrentAppConfigCommand_process_response json_obj = Ok c ->
  GetCurrentAppConfigCommand_process_response json_obj' = Ok c' ->
  APP_ID c = APP_ID c' ->
  NAME_SPACE c = NAME_SPACE c' ->
  (APP_ID c <> VNone \/ NAME_SPACE c <> VNone ->
   GetCurrentAppNameCommand_process_response NO UNK json_obj =
   GetCurrentAppNameCommand_process_response NO UNK json_obj')
  /\
  (APP_ID c = VNone -> NAME_SPACE c = VNone ->
   GetCurrentAppNameCommand_process_response NO UNK json_obj =
   Ok (match MESSAGE c with VNone => NO | _ => UNK end)).
Proof.
  intros Hc Hc' Ha Hn.
  rewrite (name_response_steps NO UNK json_obj c Hc).
  rewrite (name_response_steps NO UNK json_obj' c' Hc').
  split.
  - intros Hid.
    assert (forall x, (APP_ID x <> VNone \/ NAME_SPACE x <> VNone) ->
                      AppConfig___eq__ false x default_config = false) as K.
    { intros x Hx.
      destruct (AppConfig___eq__ false x default_config) eqn:E;
        [|reflexivity].
      apply AppConfig_eq_default in E. subst x.
      destruct Hx as [Hx|Hx]; now elim Hx. }
    rewrite (K c Hid). rewrite Ha, Hn in Hid. rewrite (K c' Hid).
    f_equal. f_equal. apply find_ext_in. intros e _.
    unfold pair_matches. now rewrite Ha, Hn.
  - intros Ha0 Hn0.
    rewrite (find_none_of_Forall _ _ (pair_matches_without_app_id c Ha0)).
    destruct c as [a n m]. cbn [APP_ID NAME_SPACE MESSAGE] in Ha0, Hn0 |- *.
    subst a n. destruct m; reflexivity.
Qed.

Lemma message_matters_only_without_ids_witness :
  let v := VDict [("APP_ID", VStr "21"); ("NAME_SPACE", VInt 2)] in
  let v' := VDict [("APP_ID", VStr "21"); ("NAME_SPACE", VInt 2);
                   ("MESSAGE", VStr "launch")] in
  GetCurrentAppConfigCommand_process_response (response "ITEM" "VALUE" v) =
    Ok (mkAppConfig (VStr "21") (VInt 2) VNone) /\
  GetCurrentAppConfigCommand_process_response (response "ITEM" "VALUE" v') =
    Ok (mkAppConfig (VStr "21") (VInt 2) (VStr "launch")) /\
  GetCurrentAppNameCommand_process_response "NO APP" "UNKNOWN"
    (response "ITEM" "VALUE" v) =
  GetCurrentAppNameCommand_process_response "NO APP" "UNKNOWN"
    (response "ITEM" "VALUE" v').
Proof.
  split; [reflexivity|]. split; [reflexivity|].
  refine (proj1 (message_matters_only_without_ids "NO APP" "UNKNOWN"
            (response "ITEM" "VALUE"
               (VDict [("APP_ID", VStr "21"); ("NAME_SPACE", VInt 2)]))
            (response "ITEM" "VALUE"
               (VDict [("APP_ID", VStr "21"); ("NAME_SPACE", VInt 2);
                       ("MESSAGE", VStr "launch")]))
            (mkAppConfig (VStr "21") (VInt 2) VNone)
            (mkAppConfig (VStr "21") (VInt 2) (VStr "launch"))
            eq_refl eq_refl eq_refl eq_refl) _).
  left. discriminate.
Defined.

(** *** Building and reading back an [AppConfig] *)

(** X8.  [AppConfig] and its attribute dict are two views of the same
    data.  Building from keyword arguments succeeds exactly when every key
    is [APP_ID], [NAME_SPACE] or [MESSAGE], and then each attribute is the
    argument given, or [None]; building from the [__dict__] of a config
    gives that config back; and so does parsing a response whose value
    spells out the [__dict__], under any letter case of the "item" and
    "value" keys. *)
Theorem config_round_trip (c : AppConfig) (item_key value_key : string) :
  lower item_key = "item" ->
  lower value_key = "value" ->
  (forall kwargs c',
      AppConfig___init__ kwargs = Ok c' <->
      Forall (fun kv => In (fst kv) field_names) kwargs /\
      c' = mkAppConfig (field kwargs "APP_ID") (field kwargs "NAME_SPACE")
             (field kwargs "MESSAGE"))
  /\
  (kwargs <- unpack_mapping (AppConfig___dict__ c) ;;
   AppConfig___init__ kwargs) = Ok c
  /\
  GetCurrentAppConfigCommand_process_response
    (response item_key value_key (AppConfig___dict__ c)) = Ok c.
Proof.
  intros Hi Hv. split; [|split].
  - intros kwargs c'.
    destruct (unexpected_keyword field_names kwargs) eqn:E.
    + rewrite (AppConfig_init_unknown_key kwargs E). split; [discriminate|].
      intros [Hk _]. apply unexpected_keyword_false in Hk. congruence.
    + rewrite (AppConfig_init_known_keys kwargs E).
      apply unexpected_keyword_false in E. split.
      * intros [= <-]. now split.
      * intros [_ ->]. reflexivity.
  - destruct c. reflexivity.
  - destruct (response_item_value item_key value_key
                (AppConfig___dict__ c) Hi Hv) as [A B].
    rewrite (process_response_steps _ _ _ A B). destruct c. reflexivity.
Qed.

Lemma config_round_trip_witness :
  let c := mkAppConfig (VStr "1") (VInt 3) VNone in
  lower "Item" = "item" /\
  lower "Value" = "value" /\
  GetCurrentAppConfigCommand_process_response
    (response "Item" "Value" (AppConfig___dict__ c)) = Ok c.
Proof.
  split; [reflexivity|]. split; [reflexivity|].
  exact (proj2 (proj2 (config_round_trip
                         (mkAppConfig (VStr "1") (VInt 3) VNone)
                         "Item" "Value" eq_refl eq_refl))).
Defined.

(** X9.  Once the response holds a "value", that value alone decides
    whether parsing succeeds.  It raises [TypeError] exactly when the value
    is truthy and is not an object made of the three known keys only: a
    number other than 0, [True], a non-empty string or list, or an object
    with some other key.  In every other case an [AppConfig] comes out,
    and the name interpreter raises whenever the config interpreter
    does. *)
Theorem value_decides_parsing
  (NO UNK : string) (top it : pydict) (v : value) :
  ci_lookup ResponseKey.ITEM top = Some (VDict it) ->
  ci_lookup ResponseKey.VALUE it = Some v ->
  (GetCurrentAppConfigCommand_process_response (VDict top) =
     Raise TypeError <->
   truthy v = true /\
   forall d, v = VDict d ->
             Exists (fun kv => ~ In (fst kv) field_names) d)
  /\
  (GetCurrentAppConfigCommand_process_response (VDict top) =
     Raise TypeError \/
   exists c, GetCurrentAppConfigCommand_process_response (VDict top) = Ok c)
  /\
  (GetCurrentAppConfigCommand_process_response (VDict top) =
     Raise TypeError ->
   GetCurrentAppNameCommand_process_response NO UNK (VDict top) =
     Raise TypeError).
Proof.
  intros Hi Hv.
  split; [|split; [|apply name_response_raises]];
    rewrite process_response_cases, Hi, Hv.
  - destruct (truthy v) eqn:Ht.
    + destruct v as [ | b | n | s | l | d];
        try (split; [intros _; split; [reflexivity|discriminate]
                    |reflexivity]).
      destruct (unexpected_keyword field_names d) eqn:E.
      * rewrite (AppConfig_init_unknown_key d E).
        split; [|reflexivity]. intros _. split; [reflexivity|].
        intros d' [= <-]. apply unexpected_keyword_Exists, E.
      * rewrite (AppConfig_init_known_keys d E).
        split; [discriminate|]. intros [_ H]. specialize (H d eq_refl).
        apply unexpected_keyword_true in H. congruence.
    + split; [discriminate|]. intros [H _]. discriminate.
  - destruct (truthy v); [|right; now eexists].
    destruct v as [ | b | n | s | l | d]; auto.
    destruct (unexpected_keyword field_names d) eqn:E.
    + left. apply AppConfig_init_unknown_key, E.
    + right. rewrite (AppConfig_init_known_keys d E). now eexists.
Qed.

Lemma value_decides_parsing_witness :
  let it := [("VALUE", VInt 5)] in
  let top := [("ITEM", VDict it)] in
  ci_lookup ResponseKey.ITEM top = Some (VDict it) /\
  ci_lookup ResponseKey.VALUE it = Some (VInt 5) /\
  truthy (VInt 5) = true /\
  GetCurrentAppConfigCommand_process_response (VDict top) = Raise TypeError.
Proof.
  split; [reflexivity|]. split; [reflexivity|]. split; [reflexivity|].
  refine (proj2 (proj1 (value_decides_parsing "NO APP" "UNKNOWN"
                          [("ITEM", VDict [("VALUE", VInt 5)])]
                          [("VALUE", VInt 5)] (VInt 5) eq_refl eq_refl))
            (conj eq_refl _)).
  intros d H. discriminate H.
Defined.

(** *** Equality is an equivalence *)

Lemma nodupb_NoDup (l : list string) : nodupb l = true -> NoDup l.
Proof.
  induction l as [|k r IH]; simpl; [constructor|].
  intros H. apply andb_true_iff in H as [Hk Hr]. constructor; auto.
  intros Hin. apply negb_true_iff in Hk.
  assert (existsb (String.eqb k) r = true) as E; [|congruence].
  apply existsb_exists. exists k. split; [exact Hin|apply String.eqb_refl].
Qed.

Lemma dict_lookup_some_in {A : Type} (d : list (string * A)) k v :
  dict_lookup k d = Some v -> In (k, v) d.
Proof.
  induction d as [|[k' v'] r IH]; simpl; [discriminate|].
  destruct (String.eqb_spec k' k) as [->|_].
  - intros [= ->]. now left.
  - intros H. right. now apply IH.
Qed.

Lemma py_eq_dict_unfold (d1 d2 : pydict) :
  py_eq (VDict d1) (VDict d2) = true <->
  length d1 = length d2 /\
  forall k v, In (k, v) d1 ->
              exists w, dict_lookup k d2 = Some w /\ py_eq v w = true.
Proof.
  simpl. rewrite andb_true_iff, Nat.eqb_eq, forallb_forall. split.
  - intros [Hl H]. split; [exact Hl|]. intros k v Hin.
    specialize (H (k, v) Hin). simpl in H.
    destruct (dict_lookup k d2) as [w|]; [|discriminate]. now exists w.
  - intros [Hl H]. split; [exact Hl|]. intros [k v] Hin. simpl.
    destruct (H k v Hin) as (w & -> & Hw). exact Hw.
Qed.

Lemma py_eq_list_unfold (x y : value) (r1 r2 : list value) :
  py_eq (VList (x :: r1)) (VList (y :: r2)) =
  py_eq x y && py_eq (VList r1) (VList r2).
Proof. reflexivity. Qed.

(** Equalities between booleans and integers, once turned into
    propositions, are settled by substitution and arithmetic. *)
Ltac solve_scalar_eq :=
  repeat match goal with
    | H : Bool.eqb _ _ = true |- _ => apply Bool.eqb_prop in H
    | H : Z.eqb _ _ = true |- _ => apply Z.eqb_eq in H
    end;
  subst;
  first
    [ apply Z.eqb_refl
    | apply Bool.eqb_reflx
    | apply Z.eqb_eq; lia
    | match goal with
      | |- Bool.eqb ?x ?z = true =>
          destruct x, z; simpl in *; first [reflexivity | lia]
      end ].

(** [==] is transitive. *)
Lemma py_eq_trans (a : value) :
  forall b c, py_eq a b = true -> py_eq b c = true -> py_eq a c = true.
Proof.
  induction a as [ | x | n | s | l IH | d IH] using value_nested_ind;
    intros b c Hab Hbc.
  - destruct b; try discriminate. exact Hbc.
  - destruct b as [ | y | m | | | ]; try discriminate;
      destruct c as [ | z | p | | | ]; try discriminate; simpl in *;
      solve_scalar_eq.
  - destruct b as [ | y | m | | | ]; try discriminate;
      destruct c as [ | z | p | | | ]; try discriminate; simpl in *;
      solve_scalar_eq.
  - destruct b; try discriminate. destruct c; try discriminate.
    simpl in *. apply String.eqb_eq in Hab, Hbc. subst.
    apply String.eqb_refl.
  - destruct b as [ | | | | l2 | ]; try discriminate.
    destruct c as [ | | | | l3 | ]; try discriminate.
    revert l2 l3 Hab Hbc.
    induction IH as [|x r Hx _ IHr]; intros [|y r2] [|z r3] Hab Hbc;
      try discriminate; try reflexivity.
    rewrite py_eq_list_unfold in *.
    apply andb_true_iff in Hab as [H1 H2].
    apply andb_true_iff in Hbc as [H3 H4].
    apply andb_true_iff. split; [now apply (Hx y z)|now apply (IHr r2 r3)].
  - destruct b as [ | | | | | d2]; try discriminate.
    destruct c as [ | | | | | d3]; try discriminate.
    apply py_eq_dict_unfold in Hab as [L1 H1].
    apply py_eq_dict_unfold in Hbc as [L2 H2].
    apply py_eq_dict_unfold. split; [congruence|].
    intros k v Hin. destruct (H1 k v Hin) as (w & Hw & Evw).
    destruct (H2 k w (dict_lookup_some_in d2 k w Hw)) as (u & Hu & Ewu).
    exists u. split; [exact Hu|].
    rewrite Forall_forall in IH. apply (IH (k, v) Hin w u Evw Ewu).
Qed.

Lemma wf_dict_entries (d : pydict) :
  wf_value (VDict d) = true ->
  nodupb (map fst d) = true /\
  forall k v, In (k, v) d -> wf_value v = true.
Proof.
  simpl. intros H. apply andb_true_iff in H as [Hn Ha]. split; [exact Hn|].
  intros k v Hin. rewrite forallb_forall in Ha. apply (Ha (k, v) Hin).
Qed.

(** Two dicts with as many keys, none repeated, one holding every key of
    the other, hold the same keys. *)
Lemma same_keys (d1 d2 : pydict) :
  nodupb (map fst d1) = true ->
  length d1 = length d2 ->
  (forall k v, In (k, v) d1 -> exists w, dict_lookup k d2 = Some w) ->
  forall k w, In (k, w) d2 -> exists v, In (k, v) d1.
Proof.
  intros Hn Hl Hsub k w Hin.
  assert (incl (map fst d2) (map fst d1)) as Hincl.
  { apply NoDup_length_incl.
    - apply nodupb_NoDup, Hn.
    - rewrite !length_map. lia.
    - intros k' Hk'. apply in_map_iff in Hk' as ([k0 v0] & <- & H0).
      destruct (Hsub k0 v0 H0) as (w0 & Hw0).
      apply dict_lookup_some_in in Hw0.
      apply (in_map fst d2 (k0, w0)), Hw0. }
  assert (In k (map fst d1)) as Hk.
  { apply Hincl. apply (in_map fst d2 (k, w)), Hin. }
  apply in_map_iff in Hk as ([k0 v0] & E & H0). simpl in E. subst k0.
  now exists v0.
Qed.

(** [==] is symmetric on well-formed values. *)
Lemma py_eq_sym_true (a : value) :
  forall b, wf_value a = true -> wf_value b = true ->
            py_eq a b = true -> py_eq b a = true.
Proof.
  induction a as [ | x | n | s | l IH | d IH] using value_nested_ind;
    intros b Wa Wb Hab.
  - destruct b; try discriminate. reflexivity.
  - destruct b; try discriminate; simpl in *; solve_scalar_eq.
  - destruct b; try discriminate; simpl in *; solve_scalar_eq.
  - destruct b; try discriminate. simpl in *.
    apply String.eqb_eq in Hab. subst. apply String.eqb_refl.
  - destruct b as [ | | | | l2 | ]; try discriminate.
    revert l2 Wa Wb Hab.
    induction IH as [|x r Hx _ IHr]; intros [|y r2] Wa Wb Hab;
      try discriminate; try reflexivity.
    rewrite py_eq_list_unfold in *.
    simpl in Wa, Wb.
    apply andb_true_iff in Wa as [Wx Wr].
    apply andb_true_iff in Wb as [Wy Wr2].
    apply andb_true_iff in Hab as [H1 H2].
    apply andb_true_iff. split; [now apply Hx|now apply IHr].
  - destruct b as [ | | | | | d2]; try discriminate.
    destruct (wf_dict_entries d Wa) as [N1 W1].
    destruct (wf_dict_entries d2 Wb) as [N2 W2].
    apply py_eq_dict_unfold in Hab as [L H].
    apply py_eq_dict_unfold. split; [now symmetry|].
    intros k w Hin.
    destruct (same_keys d d2 N1 L
                (fun k0 v0 H0 => let (w0, P) := H k0 v0 H0 in
                                 ex_intro _ w0 (proj1 P)) k w Hin)
      as (v & Hv).
    exists v. split; [now apply dict_lookup_in|].
    destruct (H k v Hv) as (w' & Hw' & E).
    rewrite (dict_lookup_in d2 k w N2 Hin) in Hw'. injection Hw' as <-.
    rewrite Forall_forall in IH.
    apply (IH (k, v) Hv w (W1 k v Hv) (W2 k w Hin) E).
Qed.

Lemma py_eq_sym (a b : value) :
  wf_value a = true -> wf_value b = true -> py_eq a b = py_eq b a.
Proof.
  intros Wa Wb.
  destruct (py_eq a b) eqn:E1, (py_eq b a) eqn:E2; try reflexivity.
  - now rewrite (py_eq_sym_true a b Wa Wb E1) in E2.
  - now rewrite (py_eq_sym_true b a Wb Wa E2) in E1.
Qed.

Lemma wf_config_fields (a : AppConfig) :
  wf_value (AppConfig___dict__ a) = true ->
  wf_value (APP_ID a) = true /\ wf_value (NAME_SPACE a) = true /\
  wf_value (MESSAGE a) = true.
Proof.
  destruct a as [x y z]. simpl. rewrite andb_true_r, !andb_true_iff. tauto.
Qed.

Lemma pairwise_equal_sym (a b : AppConfig) :
  wf_value (AppConfig___dict__ a) = true ->
  wf_value (AppConfig___dict__ b) = true ->
  pairwise_equal a b = pairwise_equal b a.
Proof.
  intros Wa Wb.
  destruct (wf_config_fields a Wa) as (A1 & A2 & A3).
  destruct (wf_config_fields b Wb) as (B1 & B2 & B3).
  unfold pairwise_equal.
  now rewrite (py_eq_sym _ _ A1 B1), (py_eq_sym _ _ A2 B2),
    (py_eq_sym _ _ A3 B3).
Qed.

Lemma pairwise_equal_trans (a b c : AppConfig) :
  pairwise_equal a b = true -> pairwise_equal b c = true ->
  pairwise_equal a c = true.
Proof.
  unfold pairwise_equal. rewrite !andb_true_iff.
  intros [[H1 H2] H3] [[K1 K2] K3].
  repeat split; eapply py_eq_trans; eauto.
Qed.

(** What [==] answers for two instances of the store. *)
Lemma eq_instances_pairwise (h : store) (r1 r2 : ref) (a b : AppConfig) :
  nth_error h r1 = Some a ->
  nth_error h r2 = Some b ->
  wf_value (AppConfig___dict__ a) = true ->
  eq_instances h r1 r2 = Some (pairwise_equal a b).
Proof.
  intros Ha Hb Wa. unfold eq_instances. rewrite Ha, Hb. f_equal.
  unfold AppConfig___eq__. destruct (Nat.eqb_spec r1 r2) as [->|_].
  - rewrite Ha in Hb. injection Hb as <-.
    now rewrite (pairwise_equal_refl a Wa).
  - apply AppConfig_eq_distinct.
Qed.

(** X10.  [AppConfig.__eq__] is an equivalence on the instances of a
    store: an instance equals itself, the answer does not depend on which
    of two instances is asked, and two instances equal to a third are
    equal. *)
Theorem AppConfig_eq_is_equivalence
  (h : store) (r1 r2 r3 : ref) (a b c : AppConfig) :
  nth_error h r1 = Some a ->
  nth_error h r2 = Some b ->
  nth_error h r3 = Some c ->
  wf_value (AppConfig___dict__ a) = true ->
  wf_value (AppConfig___dict__ b) = true ->
  eq_instances h r1 r1 = Some true /\
  eq_instances h r2 r1 = eq_instances h r1 r2 /\
  (eq_instances h r1 r2 = Some true ->
   eq_instances h r2 r3 = Some true ->
   eq_instances h r1 r3 = Some true).
Proof.
  intros Ha Hb Hc Wa Wb.
  rewrite (eq_instances_pairwise h r1 r1 a a Ha Ha Wa).
  rewrite (eq_instances_pairwise h r2 r1 b a Hb Ha Wb).
  rewrite (eq_instances_pairwise h r1 r2 a b Ha Hb Wa).
  rewrite (eq_instances_pairwise h r2 r3 b c Hb Hc Wb).
  rewrite (eq_instances_pairwise h r1 r3 a c Ha Hc Wa).
  split; [now rewrite (pairwise_equal_refl a Wa)|].
  split; [now rewrite (pairwise_equal_sym b a Wb Wa)|].
  intros H1 H2. f_equal.
  apply (pairwise_equal_trans a b c); congruence.
Qed.

Lemma AppConfig_eq_is_equivalence_witness :
  let a := mkAppConfig (VStr "1") (VInt 1) VNone in
  let b := mkAppConfig (VStr "1") (VBool true) VNone in
  let h := [a; b; a] in
  eq_instances h 0 0 = Some true /\
  eq_instances h 1 0 = eq_instances h 0 1 /\
  (eq_instances h 0 1 = Some true ->
   eq_instances h 1 2 = Some true ->
   eq_instances h 0 2 = Some true).
Proof.
  exact (AppConfig_eq_is_equivalence
           [mkAppConfig (VStr "1") (VInt 1) VNone;
            mkAppConfig (VStr "1") (VBool true) VNone;
            mkAppConfig (VStr "1") (VInt 1) VNone] 0 1 2
           (mkAppConfig (VStr "1") (VInt 1) VNone)
           (mkAppConfig (VStr "1") (VBool true) VNone)
           (mkAppConfig (VStr "1") (VInt 1) VNone)
           eq_refl eq_refl eq_refl eq_refl eq_refl).
Defined.

End AppsMore.
